(** * Preculture dilution protocols: planner and transfer dispatch

    A shallow embedding of the two Opentrons protocol scripts
    [preculture_dilution.py] and [preculture_dilution_by_pipette.py], and
    proofs about the volumes they plan and the actions they ask of the
    robot.

    Conventions of the embedding.
    - A pandas [DataFrame] of floats, as [.loc[rows, cols]] leaves it, is a
      list of rows, each a list of cells.  Cells are exact rationals ([Q]):
      [0.05] is [1 # 20], arithmetic does not round, and there is no NaN and
      no infinity.  [applymap] calls [get_transfer_volume] on Python
      floats, whose division by zero raises [ZeroDivisionError]; [Qdiv]
      would return [0], so the division is guarded explicitly.
    - A comparison of a [DataFrame] with a scalar is taken cell by cell and
      gives a frame of [bool]s; [np.any] asks whether some cell holds
      [True].  Where Python needs the truth value of a whole frame, pandas
      raises [ValueError]: this is what happens to the chained comparison
      [0 < volume <= p300_min_transfer_volume], which is
      [(0 < volume) and (volume <= p300_min_transfer_volume)], when [volume]
      is a frame.
    - The robot is a state: which pipette holds a tip, and the ordered log
      of what the script asked of it.  [has_tip] is a property of a
      pipette (API level 2.13): reading it gives a [bool], and the call
      [has_tip()] of [preculture_dilution.py] calls that [bool], which
      raises [TypeError].  One call of [transfer] is one entry of the log,
      whatever the volume; the tips that the library itself takes and
      drops within a transfer with [new_tip="always"] are not requests of
      the script and are not in the log.  Tip racks are not counted, and the
      robot never refuses a request.
    - Exceptions are values of [exn]; code that may raise returns a
      [result], and robot code lives in the monad [M]. *)

From Stdlib Require Import String Ascii QArith Qminmax ZArith List Bool Lia Lqa Permutation.
Import ListNotations.
Open Scope Q_scope.

(** * The scripts *)

(** ** Numbers *)

(** [x < y] and [x <= y] on cells. *)
Definition Qltb (x y : Q) : bool :=
  (Qnum x * QDen y <? Qnum y * QDen x)%Z.

Definition Qleb (x y : Q) : bool := Qle_bool x y.

(** ** Exceptions and results *)

Inductive exn : Type :=
| ValueError (msg : string)
| ZeroDivisionError
| KeyError
| TypeError (msg : string).

Inductive result (A : Type) : Type :=
| Ok (a : A)
| Raise (e : exn).
Arguments Ok {A} a.
Arguments Raise {A} e.

(** ** Module-level constants of both scripts *)

Definition target_OD : Q := 1 # 20.
Definition target_volume : Q := 150.

(** [rows = [chr(x) for x in range(ord("A"), ord("H")+1)]] *)
Definition rows : list ascii :=
  map ascii_of_nat (seq (nat_of_ascii "A") (nat_of_ascii "H" + 1 - nat_of_ascii "A")).

(** [cols = list(range(12))] *)
Definition cols : list nat := seq 0 12.

(** ** Data frames *)

Definition DataFrame : Type := list (list Q).

(** Position of a label in an index. *)
Fixpoint position {A : Type} (eqb : A -> A -> bool) (label : A) (index : list A)
    : option nat :=
  match index with
  | [] => None
  | x :: index' =>
      if eqb label x then Some O
      else match position eqb label index' with
           | Some i => Some (S i)
           | None => None
           end
  end.

(** [df.loc[row, col]] on a frame indexed by [rows] and [cols]: a label that
    is not in the frame raises [KeyError]. *)
Definition loc (df : DataFrame) (row : ascii) (col : nat) : result Q :=
  match position Ascii.eqb row rows, position Nat.eqb col cols with
  | Some i, Some j =>
      match nth_error df i with
      | Some cells =>
          match nth_error cells j with
          | Some v => Ok v
          | None => Raise KeyError
          end
      | None => Raise KeyError
      end
  | _, _ => Raise KeyError
  end.

(** The frame has the labels of [rows] and [cols], as [.loc[rows, cols]]
    leaves it. *)
Definition shape_ok (df : DataFrame) : Prop :=
  length df = length rows /\ Forall (fun cells => length cells = length cols) df.

(** Every cell satisfies [P]; some cell satisfies [P]. *)
Definition all_cells (P : Q -> Prop) (df : DataFrame) : Prop :=
  Forall (Forall P) df.

Definition has_cell (P : Q -> Prop) (df : DataFrame) : Prop :=
  exists cells v, In cells df /\ In v cells /\ P v.

(** [np.any(test(df))] for a cell-wise test. *)
Definition np_any (test : Q -> bool) (df : DataFrame) : bool :=
  existsb (existsb test) df.

(** [df.applymap(f)] where [f] may raise. *)
Fixpoint map_result {A B : Type} (f : A -> result B) (l : list A) : result (list B) :=
  match l with
  | [] => Ok []
  | x :: l' =>
      match f x with
      | Raise e => Raise e
      | Ok y =>
          match map_result f l' with
          | Raise e => Raise e
          | Ok ys => Ok (y :: ys)
          end
      end
  end.

Definition applymap (f : Q -> result Q) (df : DataFrame) : result DataFrame :=
  map_result (map_result f) df.

(** [scalar - df] *)
Definition rsub (x : Q) (df : DataFrame) : DataFrame :=
  map (map (fun v => x - v)) df.

(** [df.where(cond, other=o)]: keep the cells where [cond] holds, put [o]
    in the others. *)
Definition where_ (cond : Q -> bool) (other : Q) (df : DataFrame) : DataFrame :=
  map (map (fun v => if cond v then v else other)) df.

(** ** Comparisons of a cell and of a frame *)

(** A lambda such as [lambda volume: 0 < volume <= 30] is called with one
    cell and with a whole frame.  A comparison of one cell gives a [bool],
    a comparison of a frame gives a frame of [bool]s. *)
Inductive operand : Type :=
| Cell (v : Q)
| Frame (df : DataFrame).

Inductive truth : Type :=
| Bool (b : bool)
| BoolFrame (bs : list (list bool)).

Definition compare (test : Q -> bool) (x : operand) : truth :=
  match x with
  | Cell v => Bool (test v)
  | Frame df => BoolFrame (map (map test) df)
  end.

(** The message of pandas when the truth value of a frame is asked for. *)
Definition ambiguous : string :=
  "The truth value of a DataFrame is ambiguous. Use a.empty, a.bool(), a.item(), a.any() or a.all().".

(** [bool(x)], which [and], [not] and [if] ask for: pandas raises
    [ValueError] for a frame. *)
Definition truth_value (x : truth) : result bool :=
  match x with
  | Bool b => Ok b
  | BoolFrame _ => Raise (ValueError ambiguous)
  end.

(** [x and y]: [x] when [bool(x)] is false, else [y].  The chained
    comparison [a < v <= b] is [(a < v) and (v <= b)]. *)
Definition and_ (x y : truth) : result truth :=
  match truth_value x with
  | Raise e => Raise e
  | Ok true => Ok y
  | Ok false => Ok x
  end.

(** [not x] *)
Definition not_ (x : truth) : result bool :=
  match truth_value x with
  | Raise e => Raise e
  | Ok b => Ok (negb b)
  end.

(** [np.any(x)] *)
Definition np_any_of (x : truth) : bool :=
  match x with
  | Bool b => b
  | BoolFrame bs => existsb (existsb (fun b => b)) bs
  end.

(** ** The planner *)

(** [get_transfer_volume]: [target_volume * target_OD / preculture_OD]. *)
Definition get_transfer_volume (preculture_OD : Q) : result Q :=
  if Qeq_bool preculture_OD 0 then Raise ZeroDivisionError
  else Ok (target_volume * target_OD / preculture_OD).

(** What [process_OD_inputs] hands back: the two volume frames, and what it
    printed. *)
Record planned : Type := {
  stdout : list string;
  preculture_transfer_volumes : DataFrame;
  media_tranfer_volumes : DataFrame
}.

Definition warning : string :=
  "Warning: At least one of the precultre ODs is below 0.05 (OD)".

(** The body of [process_OD_inputs] that both scripts share, from the
    warning on. *)
Definition volumes_of (preculture_ODs : DataFrame) : result planned :=
  let out := if np_any (fun od => Qltb od target_OD) preculture_ODs
             then [warning] else [] in
  match applymap get_transfer_volume preculture_ODs with
  | Raise e => Raise e
  | Ok preculture_transfer_volumes =>
      let media_tranfer_volumes := rsub target_volume preculture_transfer_volumes in
      let media_tranfer_volumes :=
        where_ (fun m => Qltb 0 m) 0 media_tranfer_volumes in
      Ok {| stdout := out;
            preculture_transfer_volumes := preculture_transfer_volumes;
            media_tranfer_volumes := media_tranfer_volumes |}
  end.

(** ** The robot *)

(** The two instruments loaded by [run]. *)
Inductive InstrumentContext : Type := pipette_p10 | pipette_p300.

Definition InstrumentContext_eqb (a b : InstrumentContext) : bool :=
  match a, b with
  | pipette_p10, pipette_p10 | pipette_p300, pipette_p300 => true
  | _, _ => false
  end.

(** The three well plates loaded by [run]. *)
Inductive Labware : Type := preculture_wells | target_wells | media_wells.

Record Well : Type := { plate : Labware; well_row : ascii; well_col : nat }.

(** [labware.rows_by_name()[row][col]] *)
Definition rows_by_name (labware : Labware) (row : ascii) (col : nat) : Well :=
  {| plate := labware; well_row := row; well_col := col |}.

Inductive new_tip : Type := never | always.

(** What the script asks of the robot, in the order of the requests.
    [Transfer] is one call of [pipette.transfer], with its [new_tip]. *)
Inductive action : Type :=
| SetRailLights (on : bool)
| LoadLabware (name : string) (slot : nat)
| LoadInstrument (name : string) (mount : string)
| PickUpTip (pipette : InstrumentContext)
| DropTip (pipette : InstrumentContext)
| Transfer (pipette : InstrumentContext) (volume : Q) (source target : Well)
    (nt : new_tip)
| Home.

Record robot : Type := {
  p10_tip : bool;
  p300_tip : bool;
  log : list action
}.

Definition power_on : robot := {| p10_tip := false; p300_tip := false; log := [] |}.

Definition tips (st : robot) : bool * bool := (p10_tip st, p300_tip st).

Definition tip_of (pipette : InstrumentContext) (st : robot) : bool :=
  match pipette with
  | pipette_p10 => p10_tip st
  | pipette_p300 => p300_tip st
  end.

Definition set_tip (pipette : InstrumentContext) (b : bool) (st : robot) : robot :=
  match pipette with
  | pipette_p10 => {| p10_tip := b; p300_tip := p300_tip st; log := log st |}
  | pipette_p300 => {| p10_tip := p10_tip st; p300_tip := b; log := log st |}
  end.

Definition add_log (l : list action) (st : robot) : robot :=
  {| p10_tip := p10_tip st; p300_tip := p300_tip st; log := log st ++ l |}.

(** Robot code: a state transformer that may raise. *)
Definition M (A : Type) : Type := robot -> result A * robot.

Definition ret {A : Type} (a : A) : M A := fun st => (Ok a, st).

Definition bind {A B : Type} (m : M A) (k : A -> M B) : M B :=
  fun st =>
    match m st with
    | (Ok a, st') => k a st'
    | (Raise e, st') => (Raise e, st')
    end.

Definition lift {A : Type} (r : result A) : M A := fun st => (r, st).

Declare Scope robot_scope.
Delimit Scope robot_scope with robot.
Notation "x <- m ;; k" := (bind m (fun x => k))
  (at level 61, m at next level, right associativity) : robot_scope.
Notation "m ;; k" := (bind m (fun _ => k))
  (at level 61, right associativity) : robot_scope.
Open Scope robot_scope.

(** [for x in l: body(x)] *)
Fixpoint for_each {A : Type} (l : list A) (body : A -> M unit) : M unit :=
  match l with
  | [] => ret tt
  | x :: l' => body x ;; for_each l' body
  end.

(** [continue] ends the current turn of the loop body. *)
Definition continue : M unit := ret tt.

Definition emit (l : list action) : M unit := fun st => (Ok tt, add_log l st).

Definition set_rail_lights (on : bool) : M unit := emit [SetRailLights on].

Definition load_labware (name : string) (slot : nat) : M unit :=
  emit [LoadLabware name slot].

Definition load_instrument (name mount : string) : M unit :=
  emit [LoadInstrument name mount].

Definition home : M unit := emit [Home].

Definition pick_up_tip (pipette : InstrumentContext) : M unit :=
  fun st => (Ok tt, set_tip pipette true (add_log [PickUpTip pipette] st)).

Definition drop_tip (pipette : InstrumentContext) : M unit :=
  fun st => (Ok tt, set_tip pipette false (add_log [DropTip pipette] st)).

(** The property [pipette.has_tip]: a [bool]. *)
Definition has_tip (pipette : InstrumentContext) : M bool :=
  fun st => (Ok (tip_of pipette st), st).

(** The message of Python when a [bool] is called. *)
Definition not_callable : string := "'bool' object is not callable".

(** [b()] for a [bool] [b], as in [pipette.has_tip()]: a [bool] cannot be
    called. *)
Definition call (b : bool) : M bool :=
  fun st => (Raise (TypeError not_callable), st).

(** [pipette.transfer(volume, source, target, new_tip=nt)].  With
    [new_tip="never"] the liquid moves with the tip the pipette holds.
    With [new_tip="always"] the library takes and drops tips of its own, and
    the pipette holds none afterwards. *)
Definition transfer (pipette : InstrumentContext) (volume : Q) (source target : Well)
    (nt : new_tip) : M unit :=
  match nt with
  | never => emit [Transfer pipette volume source target never]
  | always =>
      fun st =>
        (Ok tt,
         set_tip pipette false
           (add_log [Transfer pipette volume source target always] st))
  end.

(** [p300_min_transfer_volume = 30], in both [run]s; and
    [p10_max_transfer_volume = 10], which [preculture_dilution.py] sets and
    never reads. *)
Definition p300_min_transfer_volume : Q := 30.
Definition p10_max_transfer_volume : Q := 10.

(** ** Descriptions of a log *)

(** The cells of a plate in the order of the two nested loops,
    [for row in rows: for col in cols]: A0, A1, ..., A11, B0, ..., H11. *)
Definition cells : list (ascii * nat) := list_prod rows cols.

(** The actions of one pass over the cells, [f row col volume] for each. *)
Definition cell_events (volumes : DataFrame)
    (f : ascii -> nat -> Q -> list action) : list action :=
  flat_map (fun rc =>
              match loc volumes (fst rc) (snd rc) with
              | Ok v => f (fst rc) (snd rc) v
              | Raise _ => []
              end) cells.

(** ** [preculture_dilution.py] *)

Module PrecultureDilution.

(** [process_OD_inputs]: no check of the sign. *)
Definition process_OD_inputs (preculture_ODs : DataFrame) : result planned :=
  volumes_of preculture_ODs.

(** [pipette_p300 if media_volume >= p300_min_transfer_volume else pipette_p10] *)
Definition media_pipette (media_volume : Q) : InstrumentContext :=
  if Qleb p300_min_transfer_volume media_volume then pipette_p300 else pipette_p10.

(** [pipette_p300 if preculture_volume > p300_min_transfer_volume else pipette_p10] *)
Definition preculture_pipette (preculture_volume : Q) : InstrumentContext :=
  if Qltb p300_min_transfer_volume preculture_volume then pipette_p300 else pipette_p10.

(** The first part of the body of [run], lines 62 to 93: the tips picked up
    for the medium, the loop that distributes the medium, and the two
    lines under [#drop tips], which call [has_tip()]. *)
Definition distribute_medium (media_tranfer_volumes : DataFrame) : M unit :=
  (if np_any (fun v => Qltb v p300_min_transfer_volume) media_tranfer_volumes
   then pick_up_tip pipette_p10 else ret tt) ;;
  (if np_any (fun v => Qleb p300_min_transfer_volume v) media_tranfer_volumes
   then pick_up_tip pipette_p300 else ret tt) ;;
  for_each rows (fun row =>
    for_each cols (fun col =>
      media_volume <- lift (loc media_tranfer_volumes row col) ;;
      if Qleb media_volume 0 then continue
      else
        let media_well := rows_by_name media_wells row col in
        let target_well := rows_by_name target_wells row col in
        let pipette := media_pipette media_volume in
        transfer pipette media_volume media_well target_well never)) ;;
  (t <- (b <- has_tip pipette_p10 ;; call b) ;;
   if t then drop_tip pipette_p10 else ret tt) ;;
  (t <- (b <- has_tip pipette_p300 ;; call b) ;;
   if t then drop_tip pipette_p300 else ret tt).

(** The second loop of [run]: transfer the preculture. *)
Definition transfer_preculture (preculture_transfer_volumes : DataFrame) : M unit :=
  for_each rows (fun row =>
    for_each cols (fun col =>
      preculture_volume <- lift (loc preculture_transfer_volumes row col) ;;
      if Qleb preculture_volume 0 then continue
      else
        let target_well := rows_by_name target_wells row col in
        let preculture_well := rows_by_name preculture_wells row col in
        let pipette := preculture_pipette preculture_volume in
        if Qltb 0 preculture_volume
        then transfer pipette preculture_volume preculture_well target_well always
        else ret tt)).

Definition run (preculture_ODs : DataFrame) : M unit :=
  set_rail_lights true ;;
  load_labware "corning_96_wellplate_360ul_flat" 2 ;;
  load_labware "corning_96_wellplate_360ul_flat" 1 ;;
  load_labware "corning_96_wellplate_360ul_flat" 4 ;;
  load_labware "opentrons_96_tiprack_20ul" 5 ;;
  load_labware "opentrons_96_tiprack_300ul" 3 ;;
  load_instrument "p10_single" "left" ;;
  load_instrument "p300_single" "right" ;;
  p <- lift (process_OD_inputs preculture_ODs) ;;
  distribute_medium (media_tranfer_volumes p) ;;
  transfer_preculture (preculture_transfer_volumes p) ;;
  set_rail_lights false.

(** The medium loop moves the cell with [pipette]: the cell is not skipped
    and the choice falls on [pipette].  Likewise for the preculture loop. *)
Definition medium_loop_takes (pipette : InstrumentContext) (media_volume : Q) : bool :=
  negb (Qleb media_volume 0)
  && InstrumentContext_eqb (media_pipette media_volume) pipette.

Definition preculture_loop_takes (pipette : InstrumentContext) (preculture_volume : Q)
    : bool :=
  negb (Qleb preculture_volume 0)
  && Qltb 0 preculture_volume
  && InstrumentContext_eqb (preculture_pipette preculture_volume) pipette.

(** The log of a run, written out; [PD_run_planned] below proves that this
    is what [run] leaves in the log when the planner returns. *)
Definition setup : list action :=
  [SetRailLights true;
   LoadLabware "corning_96_wellplate_360ul_flat" 2;
   LoadLabware "corning_96_wellplate_360ul_flat" 1;
   LoadLabware "corning_96_wellplate_360ul_flat" 4;
   LoadLabware "opentrons_96_tiprack_20ul" 5;
   LoadLabware "opentrons_96_tiprack_300ul" 3;
   LoadInstrument "p10_single" "left";
   LoadInstrument "p300_single" "right"].

Definition needs_p10 (media : DataFrame) : bool :=
  np_any (fun v => Qltb v p300_min_transfer_volume) media.

Definition needs_p300 (media : DataFrame) : bool :=
  np_any (fun v => Qleb p300_min_transfer_volume v) media.

Definition medium_picks (media : DataFrame) : list action :=
  (if needs_p10 media then [PickUpTip pipette_p10] else [])
  ++ (if needs_p300 media then [PickUpTip pipette_p300] else []).

(** The robot after the two tests of [np.any] and their pick-ups. *)
Definition after_picks (media : DataFrame) (st : robot) : robot :=
  {| p10_tip := needs_p10 media || p10_tip st;
     p300_tip := needs_p300 media || p300_tip st;
     log := log st ++ medium_picks media |}.

Definition medium_transfers (media : DataFrame) : list action :=
  cell_events media (fun row col media_volume =>
    if Qleb media_volume 0 then []
    else [Transfer (media_pipette media_volume) media_volume
            (rows_by_name media_wells row col)
            (rows_by_name target_wells row col) never]).

Definition medium_log (media : DataFrame) : list action :=
  medium_picks media ++ medium_transfers media.

Definition run_log (p : planned) : list action :=
  setup ++ medium_log (media_tranfer_volumes p).

End PrecultureDilution.

(** ** [preculture_dilution_by_pipette.py] *)

Module ByPipette.

(** [process_OD_inputs]: a negative cell is refused. *)
Definition process_OD_inputs (preculture_ODs : DataFrame) : result planned :=
  if np_any (fun od => Qltb od 0) preculture_ODs
  then Raise (ValueError "preculture OD below 0")
  else volumes_of preculture_ODs.

(** The two lambdas bound to [pipette_applicable] in the loop over the
    pipettes, on one cell: [0 < volume <= p300_min_transfer_volume] for the
    p10, [p300_min_transfer_volume < volume] for the p300. *)
Definition pipette_applicable (pipette : InstrumentContext) (volume : Q) : bool :=
  match pipette with
  | pipette_p10 => Qltb 0 volume && Qleb volume p300_min_transfer_volume
  | pipette_p300 => Qltb p300_min_transfer_volume volume
  end.

(** The same two lambdas on what [transfer_to_target] calls them with: the
    frame [volumes] in the test of [np.any], one cell inside the loops. *)
Definition pipette_applicable_on (pipette : InstrumentContext) (volume : operand)
    : result truth :=
  match pipette with
  | pipette_p10 =>
      and_ (compare (fun v => Qltb 0 v) volume)
           (compare (fun v => Qleb v p300_min_transfer_volume) volume)
  | pipette_p300 =>
      Ok (compare (fun v => Qltb p300_min_transfer_volume v) volume)
  end.

Definition transfer_to_target (volumes : DataFrame) (source_wells : Labware)
    (nt : new_tip) : M unit :=
  for_each [pipette_p10; pipette_p300] (fun pipette =>
    applicable <- lift (pipette_applicable_on pipette (Frame volumes)) ;;
    if negb (np_any_of applicable) then continue
    else
      (match nt with never => pick_up_tip pipette | always => ret tt end) ;;
      for_each rows (fun row =>
        for_each cols (fun col =>
          volume <- lift (loc volumes row col) ;;
          applicable <- lift (pipette_applicable_on pipette (Cell volume)) ;;
          skip <- lift (not_ applicable) ;;
          if skip then continue
          else
            let source := rows_by_name source_wells row col in
            let target := rows_by_name target_wells row col in
            transfer pipette volume source target nt)) ;;
      t <- has_tip pipette ;;
      if t then drop_tip pipette else ret tt).

Definition run (preculture_ODs : DataFrame) : M unit :=
  set_rail_lights true ;;
  load_labware "corning_96_wellplate_360ul_flat" 2 ;;
  load_labware "corning_96_wellplate_360ul_flat" 1 ;;
  load_labware "corning_96_wellplate_360ul_flat" 4 ;;
  load_labware "opentrons_96_tiprack_20ul" 5 ;;
  load_labware "opentrons_96_tiprack_300ul" 3 ;;
  load_labware "opentrons_96_tiprack_300ul" 6 ;;
  load_instrument "p10_single" "left" ;;
  load_instrument "p300_single" "right" ;;
  p <- lift (process_OD_inputs preculture_ODs) ;;
  transfer_to_target (media_tranfer_volumes p) media_wells never ;;
  transfer_to_target (preculture_transfer_volumes p) preculture_wells always ;;
  home ;;
  set_rail_lights false.

(** What [run] has asked of the robot when [process_OD_inputs] is
    called. *)
Definition setup : list action :=
  [SetRailLights true;
   LoadLabware "corning_96_wellplate_360ul_flat" 2;
   LoadLabware "corning_96_wellplate_360ul_flat" 1;
   LoadLabware "corning_96_wellplate_360ul_flat" 4;
   LoadLabware "opentrons_96_tiprack_20ul" 5;
   LoadLabware "opentrons_96_tiprack_300ul" 3;
   LoadLabware "opentrons_96_tiprack_300ul" 6;
   LoadInstrument "p10_single" "left";
   LoadInstrument "p300_single" "right"].

End ByPipette.

(** * What is proved about the scripts *)

(** ** Frames used as examples *)

(** A frame with the same value in every cell. *)
Definition full (v : Q) : DataFrame := repeat (repeat v (length cols)) (length rows).

(** Readings 0.15, 3/56, 0.5 and 0.025 in A0 to A3 and 0.1 elsewhere: the
    planner answers with preculture volumes 50, 140, 15 and 300 there. *)
Definition mixed_readings : DataFrame :=
  ((3 # 20) :: (3 # 56) :: (1 # 2) :: (1 # 40) :: repeat (1 # 10) 8)
  :: repeat (repeat (1 # 10) 12) 7.

(** Readings with 0 in A0 and 0.1 elsewhere. *)
Definition zero_in_A0 : DataFrame :=
  (0 :: repeat (1 # 10) 11) :: repeat (repeat (1 # 10) 12) 7.

(** Readings with -0.1 in A0 and 0.1 elsewhere. *)
Definition negative_in_A0 : DataFrame :=
  (- (1 # 10) :: repeat (1 # 10) 11) :: repeat (repeat (1 # 10) 12) 7.

(** Volumes with 100 in A0, 10 in A1 and 0 elsewhere. *)
Definition two_volumes : DataFrame :=
  (100 :: 10 :: repeat 0 10) :: repeat (repeat 0 12) 7.

Ltac shape_by_computation := split; [reflexivity | repeat constructor].

(** Every cell of a frame that is written out, one goal for each cell. *)
Ltac each_cell tac :=
  unfold all_cells; repeat (apply Forall_cons || apply Forall_nil); tac.

(** ** Planned volumes *)

(** The two frames of the planner as cell-wise functions: of the reading,
    and of the preculture volume. *)
Definition volume_formula (od : Q) : Q := target_volume * target_OD / od.

Definition media_formula (pre : Q) : Q :=
  if Qltb 0 (target_volume - pre) then target_volume - pre else 0.

(** A planner meets the volume formulas on the readings [ods]: it returns
    two frames of the shape of [ods], and at every label of [ods] the
    preculture volume is [target_volume * target_OD / OD] and the media
    volume is [max 0 (target_volume - preculture volume)]. *)
Definition meets_volume_formulas (process : DataFrame -> result planned)
    (ods : DataFrame) : Prop :=
  exists p,
    process ods = Ok p /\
    map (@length Q) (preculture_transfer_volumes p) = map (@length Q) ods /\
    map (@length Q) (media_tranfer_volumes p) = map (@length Q) ods /\
    (shape_ok ods ->
     shape_ok (preculture_transfer_volumes p) /\ shape_ok (media_tranfer_volumes p)) /\
    forall row col od,
      loc ods row col = Ok od ->
      exists precultureVolume diluentVolume,
        loc (preculture_transfer_volumes p) row col = Ok precultureVolume /\
        loc (media_tranfer_volumes p) row col = Ok diluentVolume /\
        precultureVolume == target_volume * target_OD / od /\
        diluentVolume == Qmax 0 (target_volume - precultureVolume).

(** A planner meets the volume invariants on the readings [ods]: at every
    label the media volume is not negative, preculture and media volume add
    up to [max target_volume (preculture volume)], and the media volume is
    positive exactly when the reading exceeds [target_OD]. *)
Definition meets_volume_invariants (process : DataFrame -> result planned)
    (ods : DataFrame) : Prop :=
  exists p,
    process ods = Ok p /\
    forall row col od,
      loc ods row col = Ok od ->
      exists precultureVolume diluentVolume,
        loc (preculture_transfer_volumes p) row col = Ok precultureVolume /\
        loc (media_tranfer_volumes p) row col = Ok diluentVolume /\
        0 <= diluentVolume /\
        precultureVolume + diluentVolume == Qmax target_volume precultureVolume /\
        (0 < diluentVolume <-> target_OD < od).

(** ** Tip sessions *)

Definition held_on (pipette : InstrumentContext) (held : bool * bool) : bool :=
  match pipette with
  | pipette_p10 => fst held
  | pipette_p300 => snd held
  end.

Definition hold (pipette : InstrumentContext) (b : bool) (held : bool * bool) : bool * bool :=
  match pipette with
  | pipette_p10 => (b, snd held)
  | pipette_p300 => (fst held, b)
  end.

(** One step of the two tip machines (idle or holding, one per pipette): a
    tip is picked up only by an idle pipette and dropped only by a holding
    one; a transfer with [new_tip="never"] needs a holding pipette, a
    transfer with [new_tip="always"] an idle one. *)
Definition tip_step (held : bool * bool) (a : action) : option (bool * bool) :=
  match a with
  | PickUpTip pipette =>
      if held_on pipette held then None else Some (hold pipette true held)
  | DropTip pipette =>
      if held_on pipette held then Some (hold pipette false held) else None
  | Transfer pipette _ _ _ never =>
      if held_on pipette held then Some held else None
  | Transfer pipette _ _ _ always =>
      if held_on pipette held then None else Some held
  | _ => Some held
  end.

Fixpoint tip_sessions (held : bool * bool) (l : list action) : option (bool * bool) :=
  match l with
  | [] => Some held
  | a :: l' =>
      match tip_step held a with
      | Some held' => tip_sessions held' l'
      | None => None
      end
  end.

(** The tip events of one pipette in a log: [true] for a pick-up, [false]
    for a drop. *)
Fixpoint tip_events (pipette : InstrumentContext) (l : list action) : list bool :=
  match l with
  | [] => []
  | PickUpTip q :: l' =>
      if InstrumentContext_eqb pipette q then true :: tip_events pipette l'
      else tip_events pipette l'
  | DropTip q :: l' =>
      if InstrumentContext_eqb pipette q then false :: tip_events pipette l'
      else tip_events pipette l'
  | _ :: l' => tip_events pipette l'
  end.

(** [n] complete sessions: pick-up, drop, pick-up, drop, ... *)
Fixpoint sessions (n : nat) : list bool :=
  match n with
  | O => []
  | S n' => true :: false :: sessions n'
  end.

(** The log keeps the tip discipline: both tip machines run through it
    from idle to idle, and for each pipette the pick-ups and drops
    alternate, starting with a pick-up and ending with a drop. *)
Definition tip_discipline (l : list action) : Prop :=
  tip_sessions (false, false) l = Some (false, false) /\
  forall pipette, exists n, tip_events pipette l = sessions n.

Definition is_drop (a : action) : bool :=
  match a with
  | DropTip _ => true
  | _ => false
  end.

(** The outcome of a run that leaks its tips: it ended with the
    [TypeError] of a call of [has_tip()]; up to there the log kept to the
    tip machines, which it leaves with the tips the robot still holds;
    some pipette holds a tip; and no tip was ever dropped. *)
Definition leaks_tips (outcome : result unit * robot) : Prop :=
  fst outcome = Raise (TypeError not_callable) /\
  tip_sessions (false, false) (log (snd outcome)) = Some (tips (snd outcome)) /\
  tips (snd outcome) <> (false, false) /\
  Forall (fun a => is_drop a = false) (log (snd outcome)).

(** ** Order of the transfers *)

(** The transfers of a log, in order: the cell of the source well and the
    volume. *)
Definition transferred_cells (l : list action) : list (ascii * nat * Q) :=
  flat_map (fun a =>
              match a with
              | Transfer _ volume source _ _ => [(well_row source, well_col source, volume)]
              | _ => []
              end) l.

(** The cells of a frame whose volume passes [select], in row-major order
    A0, A1, ..., A11, B0, ..., H11. *)
Definition row_major (select : Q -> bool) (volumes : DataFrame) : list (ascii * nat * Q) :=
  flat_map (fun rc =>
              match loc volumes (fst rc) (snd rc) with
              | Ok v => if select v then [(fst rc, snd rc, v)] else []
              | Raise _ => []
              end) cells.

(** The transfers a dispatcher has asked for on a frame, when it ends, are
    the cells of positive volume in row-major order. *)
Definition transfers_row_major (dispatcher : DataFrame -> M unit) (volumes : DataFrame)
    : Prop :=
  transferred_cells (log (snd (dispatcher volumes power_on)))
  = row_major (Qltb 0) volumes.

(** A dispatcher is row-major on a frame: it ends without raising and its
    transfers are the cells of positive volume in row-major order. *)
Definition row_major_on (dispatcher : DataFrame -> M unit) (volumes : DataFrame) : Prop :=
  fst (dispatcher volumes power_on) = Ok tt /\
  transfers_row_major dispatcher volumes.

(** ** Refused readings *)

(** The actions that touch a cell: tips and liquid. *)
Definition cell_action (a : action) : bool :=
  match a with
  | PickUpTip _ | DropTip _ | Transfer _ _ _ _ _ => true
  | _ => false
  end.

(** A planner and the run built on it refuse the readings [ods]: the
    planner raises, so does the run, and the run has asked the robot for
    no tip and no liquid. *)
Definition refuses (process : DataFrame -> result planned) (run : DataFrame -> M unit)
    (ods : DataFrame) : Prop :=
  exists e,
    (e = ZeroDivisionError \/ e = ValueError "preculture OD below 0") /\
    process ods = Raise e /\
    fst (run ods power_on) = Raise e /\
    Forall (fun a => cell_action a = false) (log (snd (run ods power_on))) /\
    tips (snd (run ods power_on)) = (false, false).

(** The run of [preculture_dilution_by_pipette.py] on [ods] fails before
    the robot was asked for anything. *)
Definition fails_before_any_action (ods : DataFrame) : Prop :=
  exists e st,
    ByPipette.run ods power_on = (Raise e, st) /\ log st = [].

(** ** Readings at the target *)

(** The transfers of a log whose source is a well of the media plate. *)
Definition diluent_transfers (l : list action) : list action :=
  filter (fun a =>
            match a with
            | Transfer _ _ source _ _ =>
                match plate source with media_wells => true | _ => false end
            | _ => false
            end) l.

(** A planner and the run built on it plan no diluent on the readings
    [ods]: 150 ul of preculture and no medium in every well, and no
    transfer out of the media plate in the log of the run. *)
Definition plans_no_diluent (process : DataFrame -> result planned)
    (run : DataFrame -> M unit) (ods : DataFrame) : Prop :=
  exists p,
    process ods = Ok p /\
    all_cells (fun v => v == 150) (preculture_transfer_volumes p) /\
    all_cells (fun v => v == 0) (media_tranfer_volumes p) /\
    shape_ok (preculture_transfer_volumes p) /\
    shape_ok (media_tranfer_volumes p) /\
    diluent_transfers (log (snd (run ods power_on))) = [].

(** ** Further properties *)

Definition is_transfer (a : action) : bool :=
  match a with
  | Transfer _ _ _ _ _ => true
  | _ => false
  end.

(** A transfer of medium as the first loop of [preculture_dilution.py]
    asks for it: with the tip the pipette holds, of a positive volume, below
    [p300_min_transfer_volume] for the p10 and from
    [p300_min_transfer_volume] on for the p300. *)
Definition medium_request (a : action) : Prop :=
  match a with
  | Transfer pipette volume _ _ nt =>
      nt = never /\ 0 < volume /\
      match pipette with
      | pipette_p10 => volume < p300_min_transfer_volume
      | pipette_p300 => p300_min_transfer_volume <= volume
      end
  | _ => True
  end.

(** A transfer goes from a well of the media plate to the well of the
    target plate with the same row and column, one of the 96 cells. *)
Definition well_to_well (a : action) : Prop :=
  match a with
  | Transfer _ _ source target _ =>
      plate source = media_wells /\
      target = rows_by_name target_wells (well_row source) (well_col source) /\
      In (well_row source) rows /\ In (well_col source) cols
  | _ => True
  end.

Definition from_plate (labware : Labware) (a : action) : bool :=
  match a with
  | Transfer _ _ source _ _ =>
      match labware, plate source with
      | preculture_wells, preculture_wells
      | target_wells, target_wells
      | media_wells, media_wells => true
      | _, _ => false
      end
  | _ => false
  end.

(** A run on [ods] ends with the lights on: it raises, with the exception
    of the planner when the planner raises; its first request switches the
    rail lights on, and it never switches them off and never homes. *)
Definition ends_with_lights_on (process : DataFrame -> result planned)
    (run : DataFrame -> M unit) (ods : DataFrame) : Prop :=
  (forall e, process ods = Raise e -> fst (run ods power_on) = Raise e) /\
  fst (run ods power_on) <> Ok tt /\
  hd_error (log (snd (run ods power_on))) = Some (SetRailLights true) /\
  ~ In (SetRailLights false) (log (snd (run ods power_on))) /\
  ~ In Home (log (snd (run ods power_on))).

(** The cells of the readings that pass [select], in row-major order, each
    with the volume [g] makes of its reading. *)
Definition planned_cells (select : Q -> bool) (g : Q -> Q) (ods : DataFrame)
    : list (ascii * nat * Q) :=
  map (fun x => (fst x, g (snd x))) (row_major select ods).

(** Readings with -0.1 in A0, 0.1 in A1 and 0.5 elsewhere. *)
Definition negative_then_positive : DataFrame :=
  (- (1 # 10) :: (1 # 10) :: repeat (1 # 2) 10) :: repeat (repeat (1 # 2) 12) 7.

(** * Proofs *)

(** ** Numbers *)

Lemma Qltb_lt (x y : Q) : Qltb x y = true <-> x < y.
Proof. unfold Qltb, Qlt. apply Z.ltb_lt. Qed.

Lemma Qltb_ge (x y : Q) : Qltb x y = false <-> y <= x.
Proof. unfold Qltb, Qle. rewrite Z.ltb_ge. reflexivity. Qed.

Lemma Qleb_le (x y : Q) : Qleb x y = true <-> x <= y.
Proof. apply Qle_bool_iff. Qed.

Lemma Qleb_gt (x y : Q) : Qleb x y = false <-> y < x.
Proof.
  unfold Qleb. split; intros H.
  - destruct (Qlt_le_dec y x) as [Hlt | Hle]; [exact Hlt |].
    apply Qle_bool_iff in Hle. congruence.
  - destruct (Qle_bool x y) eqn:E; [| reflexivity].
    apply Qle_bool_iff in E. exfalso. exact (Qlt_not_le _ _ H E).
Qed.

(** ** Frames *)

Lemma position_In {A : Type} (eqb : A -> A -> bool) (label : A) (index : list A) :
  (forall x, eqb x x = true) ->
  In label index ->
  exists i, position eqb label index = Some i /\ (i < length index)%nat.
Proof.
  intros Hrefl. induction index as [| x index IH]; simpl; [contradiction |].
  intros [-> | H].
  - rewrite Hrefl. exists O. split; [reflexivity | lia].
  - destruct (eqb label x).
    + exists O. split; [reflexivity | lia].
    + destruct (IH H) as (i & -> & Hi). exists (S i). split; [reflexivity | lia].
Qed.

Lemma loc_inv (df : DataFrame) (row : ascii) (col : nat) (v : Q) :
  loc df row col = Ok v -> exists cells, In cells df /\ In v cells.
Proof.
  unfold loc.
  destruct (position Ascii.eqb row rows) as [i |]; [| discriminate].
  destruct (position Nat.eqb col cols) as [j |]; [| discriminate].
  destruct (nth_error df i) as [cells |] eqn:E; [| discriminate].
  destruct (nth_error cells j) as [w |] eqn:E'; [| discriminate].
  intros [= <-]. apply nth_error_In in E, E'. eauto.
Qed.

Lemma loc_defined (df : DataFrame) (row : ascii) (col : nat) :
  shape_ok df -> In row rows -> In col cols -> exists v, loc df row col = Ok v.
Proof.
  intros [Hlen Hrows] Hr Hc. unfold loc.
  destruct (position_In Ascii.eqb row rows Ascii.eqb_refl Hr) as (i & -> & Hi).
  destruct (position_In Nat.eqb col cols Nat.eqb_refl Hc) as (j & -> & Hj).
  destruct (nth_error df i) as [cells |] eqn:E.
  - assert (Hcells : length cells = length cols).
    { rewrite Forall_forall in Hrows. apply Hrows. eapply nth_error_In; eauto. }
    destruct (nth_error cells j) as [v |] eqn:E'.
    + eauto.
    + apply nth_error_None in E'. lia.
  - apply nth_error_None in E. lia.
Qed.

Lemma loc_map (g : Q -> Q) (df : DataFrame) (row : ascii) (col : nat) :
  loc (map (map g) df) row col =
  match loc df row col with
  | Ok v => Ok (g v)
  | Raise e => Raise e
  end.
Proof.
  unfold loc.
  destruct (position Ascii.eqb row rows) as [i |]; [| reflexivity].
  destruct (position Nat.eqb col cols) as [j |]; [| reflexivity].
  rewrite nth_error_map.
  destruct (nth_error df i) as [cells |]; simpl; [| reflexivity].
  rewrite nth_error_map. destruct (nth_error cells j); reflexivity.
Qed.

Lemma loc_all_cells (P : Q -> Prop) (df : DataFrame) (row : ascii) (col : nat) (v : Q) :
  all_cells P df -> loc df row col = Ok v -> P v.
Proof.
  unfold all_cells. intros H Hv. destruct (loc_inv _ _ _ _ Hv) as (cells & Hin & Hin').
  rewrite Forall_forall in H. specialize (H _ Hin).
  rewrite Forall_forall in H. auto.
Qed.

Lemma shape_ok_map (g : Q -> Q) (df : DataFrame) :
  shape_ok df -> shape_ok (map (map g) df).
Proof.
  intros [Hlen Hrows]. split.
  - rewrite length_map. exact Hlen.
  - apply Forall_map. eapply Forall_impl; [| exact Hrows].
    intros cells H. rewrite length_map. exact H.
Qed.

Lemma np_any_true (test : Q -> bool) (df : DataFrame) :
  np_any test df = true <-> has_cell (fun v => test v = true) df.
Proof.
  unfold np_any, has_cell. rewrite existsb_exists. split.
  - intros (cells & Hin & H). apply existsb_exists in H.
    destruct H as (v & Hv & Ht). eauto.
  - intros (cells & v & Hin & Hv & Ht). exists cells. split; [exact Hin |].
    apply existsb_exists. eauto.
Qed.

Lemma np_any_loc (test : Q -> bool) (df : DataFrame) (row : ascii) (col : nat) (v : Q) :
  loc df row col = Ok v -> test v = true -> np_any test df = true.
Proof.
  intros H Ht. apply np_any_true.
  destruct (loc_inv _ _ _ _ H) as (cells & Hin & Hin'). exists cells, v. auto.
Qed.

Lemma np_any_false (test : Q -> bool) (df : DataFrame) :
  np_any test df = false <-> all_cells (fun v => test v = false) df.
Proof.
  unfold np_any, all_cells. induction df as [| cells df IH]; simpl.
  - split; [constructor | reflexivity].
  - rewrite orb_false_iff, IH. split.
    + intros [H1 H2]. constructor; [| exact H2].
      clear - H1. induction cells as [| v cells IH]; simpl in *; [constructor |].
      apply orb_false_iff in H1. destruct H1. constructor; auto.
    + intros H. inversion H as [| ? ? H1 H2]; subst. split; [| exact H2].
      clear - H1. induction H1 as [| v cells Hv _ IH]; simpl; [reflexivity |].
      rewrite Hv, IH. reflexivity.
Qed.

(** ** The planner *)

Lemma map_result_ok {A B : Type} (f : A -> result B) (g : A -> B) (l : list A) :
  Forall (fun x => f x = Ok (g x)) l -> map_result f l = Ok (map g l).
Proof.
  induction 1 as [| x l Hx _ IH]; simpl; [reflexivity |].
  rewrite Hx, IH. reflexivity.
Qed.

Lemma map_result_raise {A B : Type} (f : A -> result B) (e : exn) (l : list A) :
  Forall (fun x => (exists y, f x = Ok y) \/ f x = Raise e) l ->
  Exists (fun x => f x = Raise e) l ->
  map_result f l = Raise e.
Proof.
  induction 1 as [| x l Hx Hl IH]; intros Hex; [inversion Hex |].
  simpl. destruct Hx as [[y Hy] | Hx].
  - rewrite Hy. inversion Hex as [? ? H | ? ? H]; subst; [congruence |].
    rewrite (IH H). reflexivity.
  - rewrite Hx. reflexivity.
Qed.

Lemma map_result_cases {A B : Type} (f : A -> result B) (e : exn) (l : list A) :
  Forall (fun x => (exists y, f x = Ok y) \/ f x = Raise e) l ->
  (exists ys, map_result f l = Ok ys) \/ map_result f l = Raise e.
Proof.
  induction 1 as [| x l Hx Hl IH]; simpl; [left; eauto |].
  destruct Hx as [[y Hy] | Hx]; rewrite ?Hy, ?Hx; [| right; reflexivity].
  destruct IH as [[ys Hys] | IH]; rewrite ?Hys, ?IH; [left; eauto | right; reflexivity].
Qed.

Lemma get_transfer_volume_ok (od : Q) :
  ~ od == 0 -> get_transfer_volume od = Ok (volume_formula od).
Proof.
  intros H. unfold get_transfer_volume.
  destruct (Qeq_bool od 0) eqn:E; [| reflexivity].
  apply Qeq_bool_iff in E. contradiction.
Qed.

Lemma get_transfer_volume_zero (od : Q) :
  od == 0 -> get_transfer_volume od = Raise ZeroDivisionError.
Proof.
  intros H. unfold get_transfer_volume.
  apply Qeq_bool_iff in H. rewrite H. reflexivity.
Qed.

Lemma get_transfer_volume_cases (od : Q) :
  (exists y, get_transfer_volume od = Ok y) \/
  get_transfer_volume od = Raise ZeroDivisionError.
Proof.
  unfold get_transfer_volume. destruct (Qeq_bool od 0); eauto.
Qed.

Lemma applymap_ok (df : DataFrame) :
  all_cells (fun od => ~ od == 0) df ->
  applymap get_transfer_volume df = Ok (map (map volume_formula) df).
Proof.
  intros H. unfold applymap. apply map_result_ok.
  eapply Forall_impl; [| exact H]. intros cells Hc. apply map_result_ok.
  eapply Forall_impl; [| exact Hc]. intros od. apply get_transfer_volume_ok.
Qed.

Lemma applymap_zero (df : DataFrame) (cells : list Q) (od : Q) :
  In cells df -> In od cells -> od == 0 ->
  applymap get_transfer_volume df = Raise ZeroDivisionError.
Proof.
  intros Hin Hod H0. unfold applymap.
  assert (Hrow : forall l, (exists ys, map_result get_transfer_volume l = Ok ys) \/
                           map_result get_transfer_volume l = Raise ZeroDivisionError).
  { intros l. apply map_result_cases. apply Forall_forall.
    intros x _. apply get_transfer_volume_cases. }
  apply map_result_raise.
  - apply Forall_forall. intros l _. apply Hrow.
  - apply Exists_exists. exists cells. split; [exact Hin |].
    apply map_result_raise.
    + apply Forall_forall. intros x _. apply get_transfer_volume_cases.
    + apply Exists_exists. exists od. split; [exact Hod |].
      apply get_transfer_volume_zero. exact H0.
Qed.

Lemma media_frame (pre : DataFrame) :
  where_ (fun m => Qltb 0 m) 0 (rsub target_volume pre) = map (map media_formula) pre.
Proof.
  unfold where_, rsub. rewrite map_map. apply map_ext. intros cells.
  rewrite map_map. reflexivity.
Qed.

Lemma media_formula_max (pre : Q) : media_formula pre == Qmax 0 (target_volume - pre).
Proof.
  unfold media_formula. destruct (Qltb 0 (target_volume - pre)) eqn:E.
  - apply Qltb_lt in E. rewrite Q.max_r; [reflexivity | lra].
  - apply Qltb_ge in E. rewrite Q.max_l; [reflexivity | lra].
Qed.

Lemma volumes_of_ok (ods : DataFrame) :
  all_cells (fun od => ~ od == 0) ods ->
  exists out,
    volumes_of ods =
    Ok {| stdout := out;
          preculture_transfer_volumes := map (map volume_formula) ods;
          media_tranfer_volumes := map (map media_formula) (map (map volume_formula) ods) |}.
Proof.
  intros H. unfold volumes_of. rewrite (applymap_ok _ H), media_frame. eauto.
Qed.

Lemma all_cells_impl (P R : Q -> Prop) (df : DataFrame) :
  (forall v, P v -> R v) -> all_cells P df -> all_cells R df.
Proof.
  intros H. unfold all_cells. apply Forall_impl. intros cells. apply Forall_impl. exact H.
Qed.

Lemma no_negative (ods : DataFrame) :
  all_cells (fun od => 0 <= od) ods -> np_any (fun od => Qltb od 0) ods = false.
Proof.
  intros H. apply np_any_false. eapply all_cells_impl; [| exact H].
  intros v Hv. apply Qltb_ge. exact Hv.
Qed.

(** On a frame of positive readings both scripts return the same two
    frames, cell-wise images of the readings. *)
Lemma process_OD_inputs_positive (ods : DataFrame) :
  all_cells (fun od => 0 < od) ods ->
  exists out,
    let p := {| stdout := out;
                preculture_transfer_volumes := map (map volume_formula) ods;
                media_tranfer_volumes :=
                  map (map media_formula) (map (map volume_formula) ods) |} in
    PrecultureDilution.process_OD_inputs ods = Ok p /\
    ByPipette.process_OD_inputs ods = Ok p.
Proof.
  intros H.
  assert (Hnz : all_cells (fun od => ~ od == 0) ods).
  { eapply all_cells_impl; [| exact H]. intros v Hv Hz. cbv beta in *. lra. }
  destruct (volumes_of_ok ods Hnz) as [out Hout]. exists out. simpl. split.
  - exact Hout.
  - unfold ByPipette.process_OD_inputs. rewrite no_negative; [exact Hout |].
    eapply all_cells_impl; [| exact H]. intros v Hv. apply Qlt_le_weak. exact Hv.
Qed.

Lemma images_meet_volume_formulas (process : DataFrame -> result planned)
    (ods : DataFrame) (out : list string) :
  process ods =
    Ok {| stdout := out;
          preculture_transfer_volumes := map (map volume_formula) ods;
          media_tranfer_volumes :=
            map (map media_formula) (map (map volume_formula) ods) |} ->
  meets_volume_formulas process ods.
Proof.
  intros H. eexists. split; [exact H |]. simpl.
  repeat rewrite !map_map. split; [| split; [| split]].
  - apply map_ext. intros cells. apply length_map.
  - apply map_ext. intros cells. rewrite !length_map. reflexivity.
  - intros Hs. split.
    + apply shape_ok_map. exact Hs.
    + rewrite <- (map_map (map volume_formula) (map media_formula)).
      apply shape_ok_map, shape_ok_map. exact Hs.
  - intros row col od Hod.
    exists (volume_formula od), (media_formula (volume_formula od)).
    rewrite <- (map_map (map volume_formula) (map media_formula)).
    rewrite !loc_map, Hod. repeat split; try reflexivity.
    apply media_formula_max.
Qed.

(** C1.  On every frame of readings whose cells are all strictly positive,
    [process_OD_inputs] of either script returns two frames of the shape of
    the input in which, at every label [(row, col)] of the input, the
    preculture volume equals [target_volume * target_OD / OD] and the media
    volume equals [max 0 (target_volume - preculture volume)]. *)
Theorem C1_planner_volume_formulas (ods : DataFrame) :
  all_cells (fun od => 0 < od) ods ->
  meets_volume_formulas PrecultureDilution.process_OD_inputs ods /\
  meets_volume_formulas ByPipette.process_OD_inputs ods.
Proof.
  intros H. destruct (process_OD_inputs_positive ods H) as (out & H1 & H2).
  split; eapply images_meet_volume_formulas; eassumption.
Qed.

Lemma C1_witness :
  meets_volume_formulas PrecultureDilution.process_OD_inputs mixed_readings /\
  meets_volume_formulas ByPipette.process_OD_inputs mixed_readings.
Proof.
  apply (C1_planner_volume_formulas mixed_readings).
  repeat constructor.
Defined.

Lemma media_formula_nonneg (pre : Q) : 0 <= media_formula pre.
Proof.
  unfold media_formula. destruct (Qltb 0 (target_volume - pre)) eqn:E.
  - apply Qltb_lt in E. lra.
  - lra.
Qed.

Lemma media_formula_sum (pre : Q) : pre + media_formula pre == Qmax target_volume pre.
Proof.
  unfold media_formula. destruct (Qltb 0 (target_volume - pre)) eqn:E.
  - apply Qltb_lt in E. rewrite Q.max_l; lra.
  - apply Qltb_ge in E. rewrite Q.max_r; lra.
Qed.

Lemma volume_formula_below (od : Q) :
  0 < od -> (volume_formula od < target_volume <-> target_OD < od).
Proof.
  intros Hod. unfold volume_formula, target_volume, target_OD.
  assert (Hne : ~ od == 0) by lra.
  split; intros H.
  - apply Qmult_lt_r with (z := od) in H; [| exact Hod].
    unfold Qdiv in H. rewrite <- Qmult_assoc, (Qmult_comm (/ od)), Qmult_inv_r in H by exact Hne.
    lra.
  - apply Qmult_lt_r with (z := od); [exact Hod |].
    unfold Qdiv. rewrite <- Qmult_assoc, (Qmult_comm (/ od)), Qmult_inv_r by exact Hne.
    lra.
Qed.

Lemma media_formula_pos (pre : Q) : 0 < media_formula pre <-> pre < target_volume.
Proof.
  unfold media_formula. destruct (Qltb 0 (target_volume - pre)) eqn:E.
  - apply Qltb_lt in E. split; intros; lra.
  - apply Qltb_ge in E. split; intros; lra.
Qed.

(** C10.  On every frame of readings whose cells are all strictly positive,
    the two frames returned by [process_OD_inputs] of either script satisfy
    in every cell: the media volume is not negative, preculture volume plus
    media volume equals [max target_volume (preculture volume)], and the
    media volume is positive exactly when the reading exceeds [target_OD]. *)
Theorem C10_planner_volume_invariants (ods : DataFrame) :
  all_cells (fun od => 0 < od) ods ->
  meets_volume_invariants PrecultureDilution.process_OD_inputs ods /\
  meets_volume_invariants ByPipette.process_OD_inputs ods.
Proof.
  intros H. destruct (process_OD_inputs_positive ods H) as (out & H1 & H2).
  assert (Hcells : forall row col od,
    loc ods row col = Ok od ->
    exists pv dv,
      loc (map (map volume_formula) ods) row col = Ok pv /\
      loc (map (map media_formula) (map (map volume_formula) ods)) row col = Ok dv /\
      0 <= dv /\ pv + dv == Qmax target_volume pv /\ (0 < dv <-> target_OD < od)).
  { intros row col od Hod.
    exists (volume_formula od), (media_formula (volume_formula od)).
    rewrite !loc_map, Hod. repeat split; try reflexivity.
    - apply media_formula_nonneg.
    - apply media_formula_sum.
    - intros Hd. apply media_formula_pos in Hd. apply volume_formula_below in Hd; [exact Hd |].
      exact (loc_all_cells _ _ _ _ _ H Hod).
    - intros Hd. apply media_formula_pos. apply volume_formula_below; [| exact Hd].
      exact (loc_all_cells _ _ _ _ _ H Hod). }
  split; eexists; (split; [eassumption | exact Hcells]).
Qed.

Lemma C10_witness :
  meets_volume_invariants PrecultureDilution.process_OD_inputs mixed_readings /\
  meets_volume_invariants ByPipette.process_OD_inputs mixed_readings.
Proof.
  apply (C10_planner_volume_invariants mixed_readings).
  repeat constructor.
Defined.
(** ** Robot code *)

Lemma robot_eq (a b : robot) :
  p10_tip a = p10_tip b -> p300_tip a = p300_tip b -> log a = log b -> a = b.
Proof. destruct a, b. simpl. intros -> -> ->. reflexivity. Qed.

Lemma add_log_nil (st : robot) : add_log [] st = st.
Proof. apply robot_eq; simpl; auto using app_nil_r. Qed.

Lemma add_log_app (l1 l2 : list action) (st : robot) :
  add_log (l1 ++ l2) st = add_log l2 (add_log l1 st).
Proof. apply robot_eq; simpl; auto using app_assoc. Qed.

Lemma tips_add_log (l : list action) (st : robot) : tips (add_log l st) = tips st.
Proof. reflexivity. Qed.

Lemma set_tip_same (pipette : InstrumentContext) (b : bool) (st : robot) :
  tip_of pipette st = b -> set_tip pipette b st = st.
Proof. destruct pipette; simpl; intros <-; apply robot_eq; reflexivity. Qed.

Lemma bind_ok {A B : Type} (m : M A) (k : A -> M B) (st st' : robot) (a : A) :
  m st = (Ok a, st') -> bind m k st = k a st'.
Proof. unfold bind. intros ->. reflexivity. Qed.

Lemma bind_raise {A B : Type} (m : M A) (k : A -> M B) (st st' : robot) (e : exn) :
  m st = (Raise e, st') -> bind m k st = (Raise e, st').
Proof. unfold bind. intros ->. reflexivity. Qed.

Lemma for_each_emits {A : Type} (l : list A) (body : A -> M unit)
    (f : A -> list action) (t : bool * bool) :
  (forall x st, In x l -> tips st = t -> body x st = (Ok tt, add_log (f x) st)) ->
  forall st, tips st = t -> for_each l body st = (Ok tt, add_log (flat_map f l) st).
Proof.
  induction l as [| x l IH]; intros Hbody st Ht; simpl.
  - rewrite add_log_nil. reflexivity.
  - rewrite (bind_ok _ _ _ _ _ (Hbody x st (or_introl eq_refl) Ht)).
    rewrite add_log_app. apply IH.
    + intros y st' Hy. apply Hbody. right. exact Hy.
    + rewrite tips_add_log. exact Ht.
Qed.

Lemma flat_map_list_prod {A B C : Type} (h : A * B -> list C) (l1 : list A) (l2 : list B) :
  flat_map h (list_prod l1 l2) = flat_map (fun a => flat_map (fun b => h (a, b)) l2) l1.
Proof.
  induction l1 as [| a l1 IH]; simpl; [reflexivity |].
  rewrite flat_map_app, IH. f_equal.
  clear. induction l2 as [| b l2 IH]; simpl; [reflexivity |]. rewrite IH. reflexivity.
Qed.

(** The two nested loops over the cells of a frame of the right shape. *)
Lemma cell_loop (volumes : DataFrame) (body : ascii -> nat -> Q -> M unit)
    (f : ascii -> nat -> Q -> list action) (t : bool * bool) :
  shape_ok volumes ->
  (forall row col v st, tips st = t -> body row col v st = (Ok tt, add_log (f row col v) st)) ->
  forall st, tips st = t ->
    for_each rows (fun row =>
      for_each cols (fun col =>
        volume <- lift (loc volumes row col) ;; body row col volume)) st
    = (Ok tt, add_log (cell_events volumes f) st).
Proof.
  intros Hs Hbody st Ht. unfold cell_events, cells.
  rewrite flat_map_list_prod.
  apply for_each_emits with (t := t); [| exact Ht].
  intros row st1 Hrow Ht1.
  apply for_each_emits with (t := t); [| exact Ht1].
  intros col st2 Hcol Ht2. simpl.
  destruct (loc_defined volumes row col Hs Hrow Hcol) as [v Hv].
  unfold bind, lift. rewrite Hv. apply Hbody. exact Ht2.
Qed.
Lemma map_result_length {A B : Type} (f : A -> result B) (l : list A) (ys : list B) :
  map_result f l = Ok ys -> length ys = length l.
Proof.
  revert ys. induction l as [| x l IH]; simpl; intros ys H.
  - injection H as <-. reflexivity.
  - destruct (f x); [| discriminate].
    destruct (map_result f l) as [ys' |]; [| discriminate].
    injection H as <-. simpl. rewrite (IH ys' eq_refl). reflexivity.
Qed.

Lemma applymap_shape (f : Q -> result Q) (df df' : DataFrame) :
  applymap f df = Ok df' -> shape_ok df -> shape_ok df'.
Proof.
  unfold applymap, shape_ok. intros H [Hlen Hrows]. split.
  - rewrite (map_result_length _ _ _ H). exact Hlen.
  - clear Hlen. revert df' H. induction Hrows as [| cells df Hc _ IH]; simpl; intros df' H.
    + injection H as <-. constructor.
    + destruct (map_result f cells) as [cells' |] eqn:E; [| discriminate].
      destruct (map_result (map_result f) df) as [rest |]; [| discriminate].
      injection H as <-. constructor.
      * rewrite (map_result_length _ _ _ E). exact Hc.
      * apply IH. reflexivity.
Qed.

Lemma volumes_of_shape (ods : DataFrame) (p : planned) :
  volumes_of ods = Ok p -> shape_ok ods ->
  shape_ok (preculture_transfer_volumes p) /\ shape_ok (media_tranfer_volumes p).
Proof.
  unfold volumes_of. intros H Hs.
  destruct (applymap get_transfer_volume ods) as [pre |] eqn:E; [| discriminate].
  injection H as <-. simpl. pose proof (applymap_shape _ _ _ E Hs) as Hpre.
  split; [exact Hpre |]. rewrite media_frame. apply shape_ok_map. exact Hpre.
Qed.

Lemma ByPipette_volumes_of (ods : DataFrame) (p : planned) :
  ByPipette.process_OD_inputs ods = Ok p -> volumes_of ods = Ok p.
Proof.
  unfold ByPipette.process_OD_inputs.
  destruct (np_any (fun od => Qltb od 0) ods); [discriminate | auto].
Qed.

(** ** The lambdas of [transfer_to_target] *)

(** On one cell the lambdas give a [bool], the one of
    [pipette_applicable]. *)
Lemma pipette_applicable_on_cell (pipette : InstrumentContext) (volume : Q) :
  ByPipette.pipette_applicable_on pipette (Cell volume)
  = Ok (Bool (ByPipette.pipette_applicable pipette volume)).
Proof.
  destruct pipette; [| reflexivity].
  unfold ByPipette.pipette_applicable_on, ByPipette.pipette_applicable, and_, compare,
    truth_value.
  destruct (Qltb 0 volume); reflexivity.
Qed.

(** On a frame the lambda of the p300 gives a frame of [bool]s, and the
    chained comparison of the p10 raises. *)
Lemma pipette_applicable_on_frame (volumes : DataFrame) :
  ByPipette.pipette_applicable_on pipette_p10 (Frame volumes)
  = Raise (ValueError ambiguous) /\
  ByPipette.pipette_applicable_on pipette_p300 (Frame volumes)
  = Ok (BoolFrame (map (map (fun v => Qltb p300_min_transfer_volume v)) volumes)).
Proof. split; reflexivity. Qed.

(** ** The outcome of a run *)

Lemma transfer_never (pipette : InstrumentContext) (volume : Q) (source target : Well)
    (st : robot) :
  transfer pipette volume source target never st
  = (Ok tt, add_log [Transfer pipette volume source target never] st).
Proof. reflexivity. Qed.

Module ByPipetteTrace.
Import ByPipette.

(** [transfer_to_target] raises in the turn of the p10, at the test of
    [np.any], before it has asked the robot for anything. *)
Lemma transfer_to_target_raises (volumes : DataFrame) (source_wells : Labware)
    (nt : new_tip) (st : robot) :
  transfer_to_target volumes source_wells nt st = (Raise (ValueError ambiguous), st).
Proof. reflexivity. Qed.

Lemma BP_run_planned (ods : DataFrame) (p : planned) (st : robot) :
  ByPipette.process_OD_inputs ods = Ok p ->
  run ods st = (Raise (ValueError ambiguous), add_log setup st).
Proof.
  intros Hp. unfold run.
  do 9 (erewrite bind_ok; [| reflexivity]).
  erewrite bind_ok; [| unfold lift; rewrite Hp; reflexivity].
  erewrite bind_raise; [| apply transfer_to_target_raises].
  f_equal. apply robot_eq; simpl; auto. rewrite <- !app_assoc. reflexivity.
Qed.

Lemma BP_run_refused (ods : DataFrame) (e : exn) (st : robot) :
  ByPipette.process_OD_inputs ods = Raise e ->
  run ods st = (Raise e, add_log setup st).
Proof.
  intros Hp. unfold run.
  do 9 (erewrite bind_ok; [| reflexivity]).
  erewrite bind_raise; [| unfold lift; rewrite Hp; reflexivity].
  f_equal. apply robot_eq; simpl; auto. rewrite <- !app_assoc. reflexivity.
Qed.

(** Whatever the readings, the run ends with an exception when the robot
    has been asked for the lights and the loads only. *)
Lemma BP_run_outcome (ods : DataFrame) :
  exists e,
    run ods power_on = (Raise e, add_log setup power_on) /\
    match ByPipette.process_OD_inputs ods with
    | Ok _ => e = ValueError ambiguous
    | Raise e' => e = e'
    end.
Proof.
  destruct (ByPipette.process_OD_inputs ods) as [p | e] eqn:E.
  - exists (ValueError ambiguous). split; [| reflexivity].
    apply (BP_run_planned ods p). exact E.
  - exists e. split; [| reflexivity]. apply BP_run_refused. exact E.
Qed.

End ByPipetteTrace.

Module PrecultureDilutionLog.
Import PrecultureDilution.

Lemma distribute_medium_run (media : DataFrame) (st : robot) :
  shape_ok media ->
  distribute_medium media st
  = (Raise (TypeError not_callable), add_log (medium_transfers media) (after_picks media st)).
Proof.
  intros Hs. unfold distribute_medium.
  fold (needs_p10 media). fold (needs_p300 media).
  set (st1 := if needs_p10 media
              then set_tip pipette_p10 true (add_log [PickUpTip pipette_p10] st)
              else st).
  set (st2 := if needs_p300 media
              then set_tip pipette_p300 true (add_log [PickUpTip pipette_p300] st1)
              else st1).
  erewrite (bind_ok _ _ st st1); [| unfold st1; destruct (needs_p10 media); reflexivity].
  erewrite (bind_ok _ _ st1 st2); [| unfold st2; destruct (needs_p300 media); reflexivity].
  erewrite bind_ok; cycle 1.
  { apply cell_loop with (t := tips st2)
      (f := fun row col media_volume =>
              if Qleb media_volume 0 then []
              else [Transfer (media_pipette media_volume) media_volume
                      (rows_by_name media_wells row col)
                      (rows_by_name target_wells row col) never]);
      [exact Hs | | reflexivity].
    intros row col v st' _. destruct (Qleb v 0).
    - unfold continue, ret. rewrite add_log_nil. reflexivity.
    - apply transfer_never. }
  fold (medium_transfers media).
  assert (Hst2 : st2 = after_picks media st).
  { unfold st2, st1, after_picks, medium_picks.
    destruct (needs_p10 media), (needs_p300 media);
      apply robot_eq; simpl; rewrite <- ?app_assoc, ?app_nil_r; reflexivity. }
  rewrite Hst2. reflexivity.
Qed.

Lemma PD_run_planned (ods : DataFrame) (p : planned) :
  shape_ok ods ->
  PrecultureDilution.process_OD_inputs ods = Ok p ->
  run ods power_on
  = (Raise (TypeError not_callable),
     {| p10_tip := needs_p10 (media_tranfer_volumes p);
        p300_tip := needs_p300 (media_tranfer_volumes p);
        log := run_log p |}).
Proof.
  intros Hs Hp. unfold run, run_log, medium_log.
  destruct (volumes_of_shape ods p Hp Hs) as [Hpre Hmedia].
  do 8 (erewrite bind_ok; [| reflexivity]).
  erewrite bind_ok; [| unfold lift; rewrite Hp; reflexivity].
  erewrite bind_raise; [| apply distribute_medium_run; exact Hmedia].
  f_equal. apply robot_eq; simpl; rewrite ?orb_false_r, <- ?app_assoc; reflexivity.
Qed.

Lemma PD_run_refused (ods : DataFrame) (e : exn) (st : robot) :
  PrecultureDilution.process_OD_inputs ods = Raise e ->
  run ods st = (Raise e, add_log setup st).
Proof.
  intros Hp. unfold run.
  do 8 (erewrite bind_ok; [| reflexivity]).
  erewrite bind_raise; [| unfold lift; rewrite Hp; reflexivity].
  f_equal. apply robot_eq; simpl; auto. rewrite <- !app_assoc. reflexivity.
Qed.

End PrecultureDilutionLog.

(** ** Properties of every action of a log *)

Lemma Forall_cell_events (P : action -> Prop) (volumes : DataFrame)
    (f : ascii -> nat -> Q -> list action) :
  (forall row col v, In row rows -> In col cols -> loc volumes row col = Ok v ->
                     Forall P (f row col v)) ->
  Forall P (cell_events volumes f).
Proof.
  intros H. unfold cell_events. apply Forall_flat_map. apply Forall_forall.
  intros [row col] Hin. unfold cells in Hin. apply in_prod_iff in Hin.
  destruct Hin as [Hr Hc]. simpl.
  destruct (loc volumes row col) as [v |] eqn:E; [| constructor].
  apply H; assumption.
Qed.

Lemma Forall_app_parts (P : action -> Prop) (l1 l2 : list action) :
  Forall P l1 -> Forall P l2 -> Forall P (l1 ++ l2).
Proof. intros H1 H2. apply Forall_app. split; assumption. Qed.

(** Every action of the log that [preculture_dilution.py] leaves when the
    planner returns: the setup, the pick-ups, and the transfers of the
    medium loop. *)
Lemma PD_run_log_Forall (P : action -> Prop) (p : planned) :
  Forall P PrecultureDilution.setup ->
  (forall pipette, P (PickUpTip pipette)) ->
  (forall row col v,
     In row rows -> In col cols ->
     loc (media_tranfer_volumes p) row col = Ok v -> Qleb v 0 = false ->
     P (Transfer (PrecultureDilution.media_pipette v) v
          (rows_by_name media_wells row col) (rows_by_name target_wells row col) never)) ->
  Forall P (PrecultureDilution.run_log p).
Proof.
  intros Hsetup Hpick Ht.
  unfold PrecultureDilution.run_log, PrecultureDilution.medium_log,
    PrecultureDilution.medium_picks.
  apply Forall_app_parts; [exact Hsetup |].
  apply Forall_app_parts.
  { destruct (PrecultureDilution.needs_p10 (media_tranfer_volumes p)),
             (PrecultureDilution.needs_p300 (media_tranfer_volumes p));
      repeat constructor; apply Hpick. }
  unfold PrecultureDilution.medium_transfers.
  apply Forall_cell_events. intros row col v Hr Hc Hv.
  destruct (Qleb v 0) eqn:E; [constructor |].
  constructor; [| constructor]. apply Ht; assumption.
Qed.

(** The outcome of [preculture_dilution.py] on a frame of the right
    shape. *)
Lemma PD_run_outcome (ods : DataFrame) :
  shape_ok ods ->
  (exists p, PrecultureDilution.process_OD_inputs ods = Ok p /\
             PrecultureDilution.run ods power_on
             = (Raise (TypeError not_callable),
                {| p10_tip := PrecultureDilution.needs_p10 (media_tranfer_volumes p);
                   p300_tip := PrecultureDilution.needs_p300 (media_tranfer_volumes p);
                   log := PrecultureDilution.run_log p |})) \/
  (exists e, PrecultureDilution.process_OD_inputs ods = Raise e /\
             PrecultureDilution.run ods power_on
             = (Raise e, add_log PrecultureDilution.setup power_on)).
Proof.
  intros Hs. destruct (PrecultureDilution.process_OD_inputs ods) as [p | e] eqn:E.
  - left. exists p. split; [reflexivity |].
    apply PrecultureDilutionLog.PD_run_planned; auto.
  - right. exists e. split; [reflexivity |].
    apply PrecultureDilutionLog.PD_run_refused; auto.
Qed.

(** ** Tip sessions *)

Lemma tip_sessions_app (held : bool * bool) (l1 l2 : list action) :
  tip_sessions held (l1 ++ l2) =
  match tip_sessions held l1 with
  | Some held' => tip_sessions held' l2
  | None => None
  end.
Proof.
  revert held. induction l1 as [| a l1 IH]; intros held; simpl; [reflexivity |].
  destruct (tip_step held a); [apply IH | reflexivity].
Qed.

Lemma tip_sessions_seq (h1 h2 h3 : bool * bool) (l1 l2 : list action) :
  tip_sessions h1 l1 = Some h2 -> tip_sessions h2 l2 = Some h3 ->
  tip_sessions h1 (l1 ++ l2) = Some h3.
Proof. intros H1 H2. rewrite tip_sessions_app, H1. exact H2. Qed.

Lemma tip_sessions_flat_map {A : Type} (g : A -> list action) (l : list A)
    (held : bool * bool) :
  (forall x, In x l -> tip_sessions held (g x) = Some held) ->
  tip_sessions held (flat_map g l) = Some held.
Proof.
  induction l as [| x l IH]; intros H; simpl; [reflexivity |].
  apply tip_sessions_seq with (h2 := held).
  - apply H. left. reflexivity.
  - apply IH. intros y Hy. apply H. right. exact Hy.
Qed.

Lemma tip_sessions_cell_events (volumes : DataFrame)
    (f : ascii -> nat -> Q -> list action) (held : bool * bool) :
  (forall row col v, loc volumes row col = Ok v ->
                     tip_sessions held (f row col v) = Some held) ->
  tip_sessions held (cell_events volumes f) = Some held.
Proof.
  intros H. unfold cell_events. apply tip_sessions_flat_map.
  intros [row col] _. simpl. destruct (loc volumes row col) eqn:E; [| reflexivity].
  apply H. exact E.
Qed.

Lemma medium_transfers_sessions (media : DataFrame) :
  tip_sessions (PrecultureDilution.needs_p10 media, PrecultureDilution.needs_p300 media)
    (PrecultureDilution.medium_transfers media)
  = Some (PrecultureDilution.needs_p10 media, PrecultureDilution.needs_p300 media).
Proof.
  apply tip_sessions_cell_events. intros row col v Hv.
  destruct (Qleb v 0); [reflexivity |].
  assert (Hheld : held_on (PrecultureDilution.media_pipette v)
                    (PrecultureDilution.needs_p10 media, PrecultureDilution.needs_p300 media)
                  = true).
  { unfold PrecultureDilution.media_pipette.
    destruct (Qleb p300_min_transfer_volume v) eqn:E; simpl.
    - unfold PrecultureDilution.needs_p300. eapply np_any_loc; [exact Hv | exact E].
    - unfold PrecultureDilution.needs_p10. eapply np_any_loc; [exact Hv |].
      apply Qleb_gt in E. apply Qltb_lt. exact E. }
  cbn [tip_sessions tip_step]. rewrite Hheld. reflexivity.
Qed.

(** The log of [preculture_dilution.py] keeps to the tip machines, and
    leaves them with the tips picked up for the medium. *)
Lemma PD_run_log_sessions (p : planned) :
  tip_sessions (false, false) (PrecultureDilution.run_log p)
  = Some (PrecultureDilution.needs_p10 (media_tranfer_volumes p),
          PrecultureDilution.needs_p300 (media_tranfer_volumes p)).
Proof.
  unfold PrecultureDilution.run_log, PrecultureDilution.medium_log,
    PrecultureDilution.medium_picks.
  set (media := media_tranfer_volumes p).
  pose proof (medium_transfers_sessions media) as H.
  generalize dependent (PrecultureDilution.medium_transfers media). intros mt H.
  apply tip_sessions_seq with (h2 := (false, false)); [reflexivity |].
  apply tip_sessions_seq
    with (h2 := (PrecultureDilution.needs_p10 media, PrecultureDilution.needs_p300 media));
    [| exact H].
  destruct (PrecultureDilution.needs_p10 media), (PrecultureDilution.needs_p300 media);
    reflexivity.
Qed.

(** On a frame of the right shape one of the two tests of [np.any] before
    the medium loop holds: cell A0 is below 30, or it is not. *)
Lemma some_medium_tip (media : DataFrame) :
  shape_ok media ->
  (PrecultureDilution.needs_p10 media, PrecultureDilution.needs_p300 media)
  <> (false, false).
Proof.
  intros Hs.
  destruct (loc_defined media "A"%char 0%nat Hs) as [v Hv];
    [left; reflexivity | left; reflexivity |].
  unfold PrecultureDilution.needs_p10, PrecultureDilution.needs_p300.
  destruct (Qleb p300_min_transfer_volume v) eqn:E.
  - rewrite (np_any_loc (fun v => Qleb p300_min_transfer_volume v) media _ _ v Hv E).
    destruct (np_any _ media); discriminate.
  - apply Qleb_gt in E. apply Qltb_lt in E.
    rewrite (np_any_loc (fun v => Qltb v p300_min_transfer_volume) media _ _ v Hv E).
    discriminate.
Qed.

Lemma PD_run_log_no_drop (p : planned) :
  Forall (fun a => is_drop a = false) (PrecultureDilution.run_log p).
Proof.
  apply PD_run_log_Forall.
  - repeat constructor.
  - reflexivity.
  - reflexivity.
Qed.

Lemma setup_discipline : tip_discipline ByPipette.setup.
Proof.
  split; [reflexivity |]. intros pipette. exists O. destruct pipette; reflexivity.
Qed.

(** C3, on the code.  On every frame of positive readings the run of
    [preculture_dilution.py] picks up its tips for the medium and never
    releases them: it ends at the call [has_tip()] with [TypeError], some
    pipette still holds a tip and no tip was dropped, so the pick-ups are
    not followed by drops.  The run of
    [preculture_dilution_by_pipette.py] ends before it has asked for any
    tip or liquid, so its log keeps the discipline without a single
    session. *)
Theorem C3_tips_never_dropped (preculture_ODs : DataFrame) :
  shape_ok preculture_ODs ->
  all_cells (fun od => 0 < od) preculture_ODs ->
  leaks_tips (PrecultureDilution.run preculture_ODs power_on) /\
  ~ tip_discipline (log (snd (PrecultureDilution.run preculture_ODs power_on))) /\
  Forall (fun a => cell_action a = false)
    (log (snd (ByPipette.run preculture_ODs power_on))) /\
  tip_discipline (log (snd (ByPipette.run preculture_ODs power_on))).
Proof.
  intros Hs Hpos.
  destruct (process_OD_inputs_positive preculture_ODs Hpos) as (out & H1 & _).
  cbv zeta in H1.
  match type of H1 with _ = Ok ?q => set (p := q) in * end. clearbody p.
  rewrite (PrecultureDilutionLog.PD_run_planned preculture_ODs p Hs H1).
  destruct (ByPipetteTrace.BP_run_outcome preculture_ODs) as (e & -> & _).
  assert (Hmedia : shape_ok (media_tranfer_volumes p)).
  { apply (volumes_of_shape preculture_ODs p H1 Hs). }
  pose proof (some_medium_tip _ Hmedia) as Htip.
  pose proof (PD_run_log_sessions p) as Hsess.
  split; [| split; [| split]].
  - unfold leaks_tips. cbn [fst snd log tips p10_tip p300_tip].
    split; [reflexivity |]. split; [exact Hsess |]. split; [exact Htip |].
    apply PD_run_log_no_drop.
  - cbn [fst snd log]. intros [Hd _]. rewrite Hsess in Hd.
    injection Hd as H10 H300. apply Htip. rewrite H10, H300. reflexivity.
  - cbn. repeat constructor.
  - cbn [snd log add_log power_on app]. apply setup_discipline.
Qed.

Lemma C3_witness :
  leaks_tips (PrecultureDilution.run mixed_readings power_on) /\
  ~ tip_discipline (log (snd (PrecultureDilution.run mixed_readings power_on))) /\
  Forall (fun a => cell_action a = false)
    (log (snd (ByPipette.run mixed_readings power_on))) /\
  tip_discipline (log (snd (ByPipette.run mixed_readings power_on))).
Proof.
  apply (C3_tips_never_dropped mixed_readings).
  - shape_by_computation.
  - repeat constructor.
Defined.

(** What the robot holds when the run on [mixed_readings] has ended. *)
Example mixed_readings_tips :
  fst (PrecultureDilution.run mixed_readings power_on) = Raise (TypeError not_callable) /\
  tips (snd (PrecultureDilution.run mixed_readings power_on)) = (true, true) /\
  tip_events pipette_p10 (log (snd (PrecultureDilution.run mixed_readings power_on)))
  = [true] /\
  tip_events pipette_p300 (log (snd (PrecultureDilution.run mixed_readings power_on)))
  = [true].
Proof. vm_compute. repeat split. Qed.

(** ** Order of the transfers *)

Lemma transferred_cells_app (l1 l2 : list action) :
  transferred_cells (l1 ++ l2) = transferred_cells l1 ++ transferred_cells l2.
Proof. apply flat_map_app. Qed.

Lemma flat_map_flat_map {A B C : Type} (f : A -> list B) (g : B -> list C) (l : list A) :
  flat_map g (flat_map f l) = flat_map (fun x => flat_map g (f x)) l.
Proof.
  induction l as [| x l IH]; simpl; [reflexivity |].
  rewrite flat_map_app, IH. reflexivity.
Qed.

Lemma transferred_cells_cell_events (volumes : DataFrame)
    (f : ascii -> nat -> Q -> list action) (select : Q -> bool) :
  (forall row col v,
     transferred_cells (f row col v) = if select v then [(row, col, v)] else []) ->
  transferred_cells (cell_events volumes f) = row_major select volumes.
Proof.
  intros H. unfold transferred_cells, cell_events, row_major.
  rewrite flat_map_flat_map. apply flat_map_ext. intros [row col]. simpl.
  destruct (loc volumes row col) as [v |]; [| reflexivity]. apply H.
Qed.

Lemma Qleb_Qltb (x y : Q) : Qleb x y = negb (Qltb y x).
Proof.
  destruct (Qltb y x) eqn:E; simpl.
  - apply Qleb_gt. apply Qltb_lt. exact E.
  - apply Qleb_le. apply Qltb_ge. exact E.
Qed.

(** On a frame of the right shape the 96 labels, in row-major order, find
    the cells in the order of the frame. *)
Lemma cells_enumerate (df : DataFrame) :
  shape_ok df ->
  map (fun rc => loc df (fst rc) (snd rc)) cells = map Ok (concat df).
Proof.
  intros [Hlen Hrows].
  change (length rows) with 8%nat in Hlen. change (length cols) with 12%nat in Hrows.
  do 8 (destruct df as [| ? df]; [discriminate Hlen |]).
  destruct df; [| discriminate Hlen]. clear Hlen.
  repeat match goal with
         | H : Forall _ (_ :: _) |- _ => inversion H; clear H; subst
         end.
  repeat match goal with
         | H : length ?r = 12%nat |- _ =>
             do 12 (destruct r as [| ? r]; [discriminate H |]);
             destruct r; [| discriminate H]; clear H
         end.
  reflexivity.
Qed.

Lemma medium_transfers_cells (media : DataFrame) :
  transferred_cells (PrecultureDilution.medium_transfers media) = row_major (Qltb 0) media.
Proof.
  apply transferred_cells_cell_events. intros row col v.
  rewrite Qleb_Qltb. destruct (Qltb 0 v); reflexivity.
Qed.

Lemma medium_picks_cells (media : DataFrame) :
  transferred_cells (PrecultureDilution.medium_picks media) = [].
Proof.
  unfold PrecultureDilution.medium_picks.
  destruct (PrecultureDilution.needs_p10 media), (PrecultureDilution.needs_p300 media);
    reflexivity.
Qed.

Lemma medium_log_cells (media : DataFrame) :
  transferred_cells (PrecultureDilution.medium_log media) = row_major (Qltb 0) media.
Proof.
  unfold PrecultureDilution.medium_log.
  rewrite transferred_cells_app, medium_picks_cells. apply medium_transfers_cells.
Qed.

(** The medium loop asks for the cells of positive volume in row-major
    order, before the call of [has_tip()] ends the run. *)
Lemma distribute_medium_cells (volumes : DataFrame) :
  shape_ok volumes ->
  fst (PrecultureDilution.distribute_medium volumes power_on)
  = Raise (TypeError not_callable) /\
  transfers_row_major PrecultureDilution.distribute_medium volumes.
Proof.
  intros Hs. unfold transfers_row_major.
  rewrite (PrecultureDilutionLog.distribute_medium_run volumes power_on Hs).
  split; [reflexivity |].
  cbn [snd log add_log PrecultureDilution.after_picks power_on app].
  rewrite transferred_cells_app, medium_picks_cells. apply medium_transfers_cells.
Qed.

(** A cell of a frame of the right shape is found at one of the 96
    labels. *)
Lemma has_cell_loc (P : Q -> Prop) (df : DataFrame) :
  shape_ok df -> has_cell P df ->
  exists row col v, In (row, col) cells /\ loc df row col = Ok v /\ P v.
Proof.
  intros Hs (l & v & Hl & Hv & HP).
  assert (Hin : In (Ok v) (map (fun rc => loc df (fst rc) (snd rc)) cells)).
  { rewrite (cells_enumerate df Hs). apply in_map. apply in_concat. eauto. }
  apply in_map_iff in Hin. destruct Hin as ([row col] & Hloc & Hrc).
  exists row, col, v. auto.
Qed.

Lemma row_major_positive (volumes : DataFrame) :
  shape_ok volumes -> has_cell (fun v => 0 < v) volumes ->
  row_major (Qltb 0) volumes <> [].
Proof.
  intros Hs Hpos. destruct (has_cell_loc _ _ Hs Hpos) as (row & col & v & Hrc & Hv & H0).
  intros Hnil.
  assert (Hin : In (row, col, v) (row_major (Qltb 0) volumes)).
  { unfold row_major. apply in_flat_map. exists (row, col). split; [exact Hrc |].
    cbn [fst snd]. rewrite Hv.
    replace (Qltb 0 v) with true by (symmetry; apply Qltb_lt; exact H0).
    left. reflexivity. }
  rewrite Hnil in Hin. contradiction.
Qed.

(** C4, on the code.  On every frame of volumes the medium loop of
    [preculture_dilution.py] asks for the cells of positive volume in
    row-major order over the whole plate (A0, A1, ..., A11, B0, ..., H11)
    and skips the others without an error; the run then ends at the call
    [has_tip()].  [transfer_to_target] of
    [preculture_dilution_by_pipette.py] raises [ValueError] at its first
    test, [np.any(pipette_applicable(volumes))], and asks for no transfer:
    where some cell has a positive volume its transfers are not the cells
    of positive volume. *)
Theorem C4_transfer_order (volumes : DataFrame) :
  shape_ok volumes ->
  (fst (PrecultureDilution.distribute_medium volumes power_on)
   = Raise (TypeError not_callable) /\
   transfers_row_major PrecultureDilution.distribute_medium volumes) /\
  forall source_wells nt,
    ByPipette.transfer_to_target volumes source_wells nt power_on
    = (Raise (ValueError ambiguous), power_on) /\
    (has_cell (fun v => 0 < v) volumes ->
     ~ transfers_row_major
         (fun volumes => ByPipette.transfer_to_target volumes source_wells nt) volumes).
Proof.
  intros Hs. split; [apply distribute_medium_cells; exact Hs |].
  intros source_wells nt. split; [reflexivity |].
  intros Hpos Hrm. unfold transfers_row_major in Hrm.
  rewrite ByPipetteTrace.transfer_to_target_raises in Hrm.
  apply (row_major_positive volumes Hs Hpos). symmetry. exact Hrm.
Qed.

Lemma C4_witness :
  (fst (PrecultureDilution.distribute_medium two_volumes power_on)
   = Raise (TypeError not_callable) /\
   transfers_row_major PrecultureDilution.distribute_medium two_volumes) /\
  forall source_wells nt,
    ByPipette.transfer_to_target two_volumes source_wells nt power_on
    = (Raise (ValueError ambiguous), power_on) /\
    (has_cell (fun v => 0 < v) two_volumes ->
     ~ transfers_row_major
         (fun volumes => ByPipette.transfer_to_target volumes source_wells nt)
         two_volumes).
Proof.
  apply (C4_transfer_order two_volumes). shape_by_computation.
Defined.

(** On [two_volumes] the claim asks for A0, then A1; the medium loop of
    [preculture_dilution.py] asks for them, [transfer_to_target] for
    nothing. *)
Example two_volumes_row_major :
  row_major (Qltb 0) two_volumes = [("A"%char, 0%nat, 100); ("A"%char, 1%nat, 10)].
Proof. vm_compute. reflexivity. Qed.

Example two_volumes_medium_loop :
  transferred_cells (log (snd (PrecultureDilution.distribute_medium two_volumes power_on)))
  = [("A"%char, 0%nat, 100); ("A"%char, 1%nat, 10)].
Proof. vm_compute. reflexivity. Qed.

Example two_volumes_by_pipette :
  ByPipette.transfer_to_target two_volumes media_wells never power_on
  = (Raise (ValueError ambiguous), power_on) /\
  ~ row_major_on
      (fun volumes => ByPipette.transfer_to_target volumes media_wells never)
      two_volumes.
Proof.
  split; [reflexivity |]. intros [H _]. discriminate H.
Qed.

(** ** Which pipette takes which volume *)

Lemma applicable_p10 (v : Q) :
  ByPipette.pipette_applicable pipette_p10 v = true <-> 0 < v /\ v <= 30.
Proof.
  unfold ByPipette.pipette_applicable, p300_min_transfer_volume.
  rewrite andb_true_iff, Qltb_lt, Qleb_le. reflexivity.
Qed.

Lemma applicable_p300 (v : Q) :
  ByPipette.pipette_applicable pipette_p300 v = true <-> 30 < v.
Proof. unfold ByPipette.pipette_applicable. apply Qltb_lt. Qed.

Lemma InstrumentContext_eqb_eq (a b : InstrumentContext) :
  InstrumentContext_eqb a b = true <-> a = b.
Proof. destruct a, b; simpl; split; congruence. Qed.

Lemma medium_loop_takes_positive (pipette : InstrumentContext) (v : Q) :
  0 < v ->
  (PrecultureDilution.medium_loop_takes pipette v = true <->
   PrecultureDilution.media_pipette v = pipette).
Proof.
  intros Hv. unfold PrecultureDilution.medium_loop_takes.
  replace (Qleb v 0) with false by (symmetry; apply Qleb_gt; exact Hv).
  cbn [negb andb]. apply InstrumentContext_eqb_eq.
Qed.

Lemma preculture_loop_takes_positive (pipette : InstrumentContext) (v : Q) :
  0 < v ->
  (PrecultureDilution.preculture_loop_takes pipette v = true <->
   PrecultureDilution.preculture_pipette v = pipette).
Proof.
  intros Hv. unfold PrecultureDilution.preculture_loop_takes.
  replace (Qleb v 0) with false by (symmetry; apply Qleb_gt; exact Hv).
  replace (Qltb 0 v) with true by (symmetry; apply Qltb_lt; exact Hv).
  cbn [negb andb]. apply InstrumentContext_eqb_eq.
Qed.

(** C2.  With the threshold [p300_min_transfer_volume] fixed at 30 ul, for
    every strictly positive volume exactly one of the two pipettes passes
    the applicability test of [transfer_to_target]; and in
    [preculture_dilution.py] exactly one pipette takes the volume in the
    medium loop, and exactly one in the preculture loop. *)
Theorem C2_exactly_one_pipette (v : Q) :
  0 < v ->
  p300_min_transfer_volume = 30 /\
  (exists! pipette, ByPipette.pipette_applicable pipette v = true) /\
  (exists! pipette, PrecultureDilution.medium_loop_takes pipette v = true) /\
  (exists! pipette, PrecultureDilution.preculture_loop_takes pipette v = true).
Proof.
  intros Hv. split; [reflexivity |]. split; [| split].
  - destruct (Qlt_le_dec 30 v) as [Hbig | Hsmall].
    + exists pipette_p300. split.
      * apply applicable_p300. exact Hbig.
      * intros [|] H; [| reflexivity]. apply applicable_p10 in H. lra.
    + exists pipette_p10. split.
      * apply applicable_p10. split; assumption.
      * intros [|] H; [reflexivity |]. apply applicable_p300 in H. lra.
  - exists (PrecultureDilution.media_pipette v). split.
    + apply medium_loop_takes_positive; [exact Hv | reflexivity].
    + intros q H. apply medium_loop_takes_positive in H; assumption.
  - exists (PrecultureDilution.preculture_pipette v). split.
    + apply preculture_loop_takes_positive; [exact Hv | reflexivity].
    + intros q H. apply preculture_loop_takes_positive in H; assumption.
Qed.

Lemma C2_witness :
  p300_min_transfer_volume = 30 /\
  (exists! pipette, ByPipette.pipette_applicable pipette 30 = true) /\
  (exists! pipette, PrecultureDilution.medium_loop_takes pipette 30 = true) /\
  (exists! pipette, PrecultureDilution.preculture_loop_takes pipette 30 = true).
Proof.
  apply (C2_exactly_one_pipette 30). reflexivity.
Defined.

(** Away from the threshold the three choices of a pipette agree. *)
Lemma pipettes_agree_off_threshold (v : Q) :
  0 < v -> ~ v == 30 ->
  PrecultureDilution.media_pipette v = PrecultureDilution.preculture_pipette v /\
  ByPipette.pipette_applicable (PrecultureDilution.media_pipette v) v = true.
Proof.
  intros Hv Hne.
  unfold PrecultureDilution.media_pipette, PrecultureDilution.preculture_pipette,
    p300_min_transfer_volume.
  destruct (Qleb 30 v) eqn:E1; destruct (Qltb 30 v) eqn:E2.
  - split; [reflexivity |]. apply applicable_p300. apply Qltb_lt. exact E2.
  - exfalso. apply Qleb_le in E1. apply Qltb_ge in E2. apply Hne. apply Qle_antisym; assumption.
  - exfalso. apply Qleb_gt in E1. apply Qltb_lt in E2. lra.
  - split; [reflexivity |]. apply applicable_p10. apply Qltb_ge in E2. split; assumption.
Qed.

(** C9, at the threshold.  For a volume of exactly 30 ul the medium loop of
    [preculture_dilution.py] takes the p300, while its preculture loop and
    the tests of [transfer_to_target] take the p10.  The planner produces
    such volumes: a reading of 0.0625 gives 30 ul of medium, a reading of
    0.25 gives 30 ul of preculture. *)
Theorem C9_threshold_disagreement :
  (PrecultureDilution.media_pipette 30 = pipette_p300 /\
   PrecultureDilution.preculture_pipette 30 = pipette_p10 /\
   ByPipette.pipette_applicable pipette_p10 30 = true /\
   ByPipette.pipette_applicable pipette_p300 30 = false) /\
  (media_formula (volume_formula (1 # 16)) == 30 /\
   PrecultureDilution.media_pipette (media_formula (volume_formula (1 # 16)))
   = pipette_p300 /\
   ByPipette.pipette_applicable pipette_p10 (media_formula (volume_formula (1 # 16)))
   = true) /\
  (volume_formula (1 # 4) == 30 /\
   PrecultureDilution.preculture_pipette (volume_formula (1 # 4)) = pipette_p10 /\
   PrecultureDilution.media_pipette (volume_formula (1 # 4)) = pipette_p300).
Proof. repeat split. Qed.

(** ** Tips and applicable cells *)

(** [transfer_to_target] never picks a tip up: it raises before. *)
Lemma ByPipette_no_tip (volumes : DataFrame) (source_wells : Labware) (nt : new_tip)
    (pipette : InstrumentContext) :
  ~ In (PickUpTip pipette)
       (log (snd (ByPipette.transfer_to_target volumes source_wells nt power_on))).
Proof.
  rewrite ByPipetteTrace.transfer_to_target_raises. intros [].
Qed.

(** C7, on [preculture_dilution.py].  When every reading equals
    [target_OD] the media frame is zero everywhere, so the medium loop
    moves no cell with the p10 (nor with the p300); yet the p10 picks a tip
    up: the test before the loop, [np.any(media_tranfer_volumes < 30)],
    holds of the cells the loop skips.  The tip is all the run asks for
    after the setup, and the run ends holding it. *)
Theorem C7_unused_p10_tip :
  (exists p, PrecultureDilution.process_OD_inputs (full (1 # 20)) = Ok p /\
             media_tranfer_volumes p = full 0) /\
  np_any (PrecultureDilution.medium_loop_takes pipette_p10) (full 0) = false /\
  PrecultureDilution.distribute_medium (full 0) power_on
  = (Raise (TypeError not_callable),
     {| p10_tip := true; p300_tip := false; log := [PickUpTip pipette_p10] |}) /\
  PrecultureDilution.run (full (1 # 20)) power_on
  = (Raise (TypeError not_callable),
     {| p10_tip := true; p300_tip := false;
        log := PrecultureDilution.setup ++ [PickUpTip pipette_p10] |}).
Proof.
  split; [| split; [| split]].
  - eexists. split; [vm_compute; reflexivity | reflexivity].
  - vm_compute. reflexivity.
  - vm_compute. reflexivity.
  - vm_compute. reflexivity.
Qed.

(** ** Refused readings *)

Lemma volumes_of_zero (ods : DataFrame) :
  has_cell (fun od => od == 0) ods -> volumes_of ods = Raise ZeroDivisionError.
Proof.
  intros (cells & od & Hin & Hod & H0). unfold volumes_of.
  rewrite (applymap_zero ods cells od Hin Hod H0). reflexivity.
Qed.

(** C5.  On every frame of readings with a cell equal to 0,
    [process_OD_inputs] of either script raises ([ZeroDivisionError], or in
    [preculture_dilution_by_pipette.py] the [ValueError] of a negative cell
    when there is one), the run ends with that exception, and no tip was
    picked up or dropped and no liquid moved, for that cell or any other. *)
Theorem C5_zero_reading_refused (ods : DataFrame) :
  has_cell (fun od => od == 0) ods ->
  refuses PrecultureDilution.process_OD_inputs PrecultureDilution.run ods /\
  refuses ByPipette.process_OD_inputs ByPipette.run ods.
Proof.
  intros H. pose proof (volumes_of_zero ods H) as Hz. split.
  - exists ZeroDivisionError. split; [left; reflexivity |]. split; [exact Hz |].
    rewrite (PrecultureDilutionLog.PD_run_refused ods _ power_on Hz).
    repeat split. simpl. repeat constructor.
  - assert (Hp : exists e,
        (e = ZeroDivisionError \/ e = ValueError "preculture OD below 0") /\
        ByPipette.process_OD_inputs ods = Raise e).
    { unfold ByPipette.process_OD_inputs.
      destruct (np_any (fun od => Qltb od 0) ods); eauto. }
    destruct Hp as (e & He & Hp). exists e. split; [exact He |]. split; [exact Hp |].
    rewrite (ByPipetteTrace.BP_run_refused ods _ power_on Hp).
    repeat split. simpl. repeat constructor.
Qed.

Lemma C5_witness :
  refuses PrecultureDilution.process_OD_inputs PrecultureDilution.run zero_in_A0 /\
  refuses ByPipette.process_OD_inputs ByPipette.run zero_in_A0.
Proof.
  apply (C5_zero_reading_refused zero_in_A0).
  exists (0 :: repeat (1 # 10) 11), 0. simpl. repeat split; auto.
Defined.

(** The run on [negative_in_A0] fails, but after the rail lights were
    switched on and the labware and the pipettes were loaded. *)
Lemma C6_counterexample :
  has_cell (fun od => od < 0) negative_in_A0 /\
  ~ fails_before_any_action negative_in_A0.
Proof.
  split.
  - exists (- (1 # 10) :: repeat (1 # 10) 11), (- (1 # 10)). simpl.
    repeat split; auto.
  - intros (e & st & Hrun & Hlog).
    vm_compute in Hrun. injection Hrun as _ <-. discriminate Hlog.
Qed.

(** C6, amended.  On every frame of readings with a negative cell, the run
    of [preculture_dilution_by_pipette.py] fails with the [ValueError] of
    [process_OD_inputs]; by then the rail lights are on and the labware and
    pipettes are loaded, and nothing else was asked of the robot: no tip,
    no liquid, no homing, and the lights are not switched off. *)
Theorem C6_negative_reading_refused (ods : DataFrame) :
  has_cell (fun od => od < 0) ods ->
  ByPipette.process_OD_inputs ods = Raise (ValueError "preculture OD below 0") /\
  ByPipette.run ods power_on
  = (Raise (ValueError "preculture OD below 0"),
     {| p10_tip := false; p300_tip := false; log := ByPipette.setup |}).
Proof.
  intros (cells & od & Hin & Hod & Hneg).
  assert (Hp : ByPipette.process_OD_inputs ods = Raise (ValueError "preculture OD below 0")).
  { unfold ByPipette.process_OD_inputs.
    replace (np_any (fun od => Qltb od 0) ods) with true; [reflexivity |].
    symmetry. apply np_any_true. exists cells, od. repeat split; auto.
    apply Qltb_lt. exact Hneg. }
  split; [exact Hp |].
  rewrite (ByPipetteTrace.BP_run_refused ods _ power_on Hp). reflexivity.
Qed.

Lemma C6_witness :
  ByPipette.process_OD_inputs negative_in_A0 = Raise (ValueError "preculture OD below 0") /\
  ByPipette.run negative_in_A0 power_on
  = (Raise (ValueError "preculture OD below 0"),
     {| p10_tip := false; p300_tip := false; log := ByPipette.setup |}).
Proof.
  apply (C6_negative_reading_refused negative_in_A0).
  exists (- (1 # 10) :: repeat (1 # 10) 11), (- (1 # 10)). simpl.
  repeat split; auto.
Defined.

(** ** Readings at the target *)

Lemma all_cells_map (P : Q -> Prop) (g : Q -> Q) (df : DataFrame) :
  all_cells (fun v => P (g v)) df -> all_cells P (map (map g) df).
Proof.
  unfold all_cells. intros H. apply Forall_map.
  eapply Forall_impl; [| exact H]. intros cells Hc. apply Forall_map. exact Hc.
Qed.

Lemma volume_formula_target (od : Q) : od == target_OD -> volume_formula od == 150.
Proof.
  intros H. unfold volume_formula. rewrite H. reflexivity.
Qed.

Lemma media_formula_target (pre : Q) : pre == 150 -> media_formula pre == 0.
Proof.
  intros H. unfold media_formula.
  destruct (Qltb 0 (target_volume - pre)) eqn:E; [| reflexivity].
  apply Qltb_lt in E. unfold target_volume in E. lra.
Qed.

Lemma diluent_transfers_none (l : list action) :
  Forall (fun a => is_transfer a = false) l -> diluent_transfers l = [].
Proof.
  induction 1 as [| a l Ha _ IH]; [reflexivity |].
  unfold diluent_transfers in *. cbn [filter]. rewrite IH.
  destruct a; try reflexivity. discriminate Ha.
Qed.

(** Where no medium is planned, the log of [preculture_dilution.py] holds
    no transfer at all. *)
Lemma PD_run_log_no_medium (p : planned) :
  all_cells (fun v => v == 0) (media_tranfer_volumes p) ->
  Forall (fun a => is_transfer a = false) (PrecultureDilution.run_log p).
Proof.
  intros Hz. apply PD_run_log_Forall.
  - repeat constructor.
  - reflexivity.
  - intros row col v _ _ Hv Hskip. exfalso.
    pose proof (loc_all_cells _ _ _ _ _ Hz Hv) as H0. cbv beta in H0.
    apply Qleb_gt in Hskip. lra.
Qed.

(** A frame without medium has no cell for either test of
    [transfer_to_target]. *)
Lemma no_medium_applicable (pipette : InstrumentContext) (volumes : DataFrame) :
  all_cells (fun v => v == 0) volumes ->
  np_any (ByPipette.pipette_applicable pipette) volumes = false.
Proof.
  intros Hz. apply np_any_false. eapply all_cells_impl; [| exact Hz].
  intros v H0. cbv beta in H0.
  destruct (ByPipette.pipette_applicable pipette v) eqn:E; [exfalso | reflexivity].
  destruct pipette.
  - apply applicable_p10 in E. lra.
  - apply applicable_p300 in E. lra.
Qed.

(** C8.  On every frame of readings whose cells all equal [target_OD]
    (0.05), [process_OD_inputs] of either script returns a preculture
    volume of 150 ul and a media volume of 0 in every well, and the log of
    the run holds no transfer out of the media plate: the medium loop of
    [preculture_dilution.py] skips every cell, and in
    [preculture_dilution_by_pipette.py] no cell of the media frame passes
    the test of either pipette. *)
Theorem C8_readings_at_target (ods : DataFrame) :
  shape_ok ods ->
  all_cells (fun od => od == target_OD) ods ->
  plans_no_diluent PrecultureDilution.process_OD_inputs PrecultureDilution.run ods /\
  plans_no_diluent ByPipette.process_OD_inputs ByPipette.run ods /\
  forall p pipette,
    ByPipette.process_OD_inputs ods = Ok p ->
    np_any (ByPipette.pipette_applicable pipette) (media_tranfer_volumes p) = false.
Proof.
  intros Hs Ht.
  assert (Hpos : all_cells (fun od => 0 < od) ods).
  { eapply all_cells_impl; [| exact Ht]. intros v H. cbv beta in H.
    unfold target_OD in H. lra. }
  destruct (process_OD_inputs_positive ods Hpos) as (out & H1 & H2).
  set (p := {| stdout := out;
               preculture_transfer_volumes := map (map volume_formula) ods;
               media_tranfer_volumes :=
                 map (map media_formula) (map (map volume_formula) ods) |}) in *.
  assert (Hpre : all_cells (fun v => v == 150) (preculture_transfer_volumes p)).
  { apply all_cells_map. eapply all_cells_impl; [| exact Ht].
    intros v. apply volume_formula_target. }
  assert (Hmedia : all_cells (fun v => v == 0) (media_tranfer_volumes p)).
  { apply all_cells_map. eapply all_cells_impl; [| exact Hpre].
    intros v. apply media_formula_target. }
  assert (Hsp : shape_ok (preculture_transfer_volumes p)) by (apply shape_ok_map; exact Hs).
  assert (Hsm : shape_ok (media_tranfer_volumes p)) by (apply shape_ok_map; exact Hsp).
  clearbody p.
  split; [| split].
  - exists p. repeat (split; [assumption |]).
    rewrite (PrecultureDilutionLog.PD_run_planned ods p Hs H1). cbn [snd log].
    apply diluent_transfers_none. apply PD_run_log_no_medium. exact Hmedia.
  - exists p. repeat (split; [assumption |]).
    rewrite (ByPipetteTrace.BP_run_planned ods p power_on H2). reflexivity.
  - intros p' pipette Hp'. rewrite H2 in Hp'. injection Hp' as <-.
    apply no_medium_applicable. exact Hmedia.
Qed.

Lemma C8_witness :
  plans_no_diluent PrecultureDilution.process_OD_inputs PrecultureDilution.run
    (full (1 # 20)) /\
  plans_no_diluent ByPipette.process_OD_inputs ByPipette.run (full (1 # 20)) /\
  forall p pipette,
    ByPipette.process_OD_inputs (full (1 # 20)) = Ok p ->
    np_any (ByPipette.pipette_applicable pipette) (media_tranfer_volumes p) = false.
Proof.
  apply (C8_readings_at_target (full (1 # 20))).
  - shape_by_computation.
  - repeat constructor.
Defined.

(** How the two runs end on readings at the target: neither has asked for
    a transfer, and neither has come to its preculture. *)
Example readings_at_target_outcomes :
  PrecultureDilution.run (full (1 # 20)) power_on
  = (Raise (TypeError not_callable),
     {| p10_tip := true; p300_tip := false;
        log := PrecultureDilution.setup ++ [PickUpTip pipette_p10] |}) /\
  ByPipette.run (full (1 # 20)) power_on
  = (Raise (ValueError ambiguous),
     {| p10_tip := false; p300_tip := false; log := ByPipette.setup |}).
Proof. split; vm_compute; reflexivity. Qed.

(** * Further properties of the scripts *)

(** ** Outcomes of the planner *)

Lemma zero_or_not (df : DataFrame) :
  has_cell (fun od => od == 0) df \/ all_cells (fun od => ~ od == 0) df.
Proof.
  destruct (np_any (fun od => Qeq_bool od 0) df) eqn:E.
  - left. apply np_any_true in E. destruct E as (cells & v & Hin & Hv & H).
    exists cells, v. repeat split; auto. apply Qeq_bool_iff. exact H.
  - right. apply np_any_false in E. eapply all_cells_impl; [| exact E].
    intros v Hv H. cbv beta in Hv. apply Qeq_bool_iff in H. congruence.
Qed.

Lemma negative_or_not (df : DataFrame) :
  has_cell (fun od => od < 0) df \/ all_cells (fun od => 0 <= od) df.
Proof.
  destruct (np_any (fun od => Qltb od 0) df) eqn:E.
  - left. apply np_any_true in E. destruct E as (cells & v & Hin & Hv & H).
    exists cells, v. repeat split; auto. apply Qltb_lt. exact H.
  - right. apply np_any_false in E. eapply all_cells_impl; [| exact E].
    intros v Hv. apply Qltb_ge. exact Hv.
Qed.

Lemma has_cell_all_cells (P R : Q -> Prop) (df : DataFrame) :
  has_cell P df -> all_cells R df -> exists v, P v /\ R v.
Proof.
  intros (cells & v & Hin & Hv & HP) H. exists v. split; [exact HP |].
  unfold all_cells in H. rewrite Forall_forall in H. specialize (H _ Hin).
  rewrite Forall_forall in H. auto.
Qed.

Lemma volumes_of_outcome (ods : DataFrame) :
  (has_cell (fun od => od == 0) ods /\ volumes_of ods = Raise ZeroDivisionError) \/
  (all_cells (fun od => ~ od == 0) ods /\ exists p, volumes_of ods = Ok p).
Proof.
  destruct (zero_or_not ods) as [Hz | Hnz].
  - left. split; [exact Hz |]. apply volumes_of_zero. exact Hz.
  - right. split; [exact Hnz |]. destruct (volumes_of_ok ods Hnz) as [out H]. eauto.
Qed.

Lemma no_negative_cell (df : DataFrame) :
  all_cells (fun od => 0 <= od) df -> ~ has_cell (fun od => od < 0) df.
Proof.
  intros Hall Hneg. destruct (has_cell_all_cells _ _ _ Hneg Hall) as (v & H1 & H2). lra.
Qed.

Lemma no_zero_cell (df : DataFrame) :
  all_cells (fun od => ~ od == 0) df -> ~ has_cell (fun od => od == 0) df.
Proof.
  intros Hall Hz. destruct (has_cell_all_cells _ _ _ Hz Hall) as (v & H1 & H2).
  contradiction.
Qed.

(** X1.  [process_OD_inputs] of [preculture_dilution_by_pipette.py] raises
    the [ValueError] exactly when some reading is negative, raises
    [ZeroDivisionError] exactly when no reading is negative and some reading
    is 0, returns exactly when no reading is negative and none is 0, and
    raises nothing else. *)
Theorem X1_by_pipette_planner_outcomes (ods : DataFrame) :
  (ByPipette.process_OD_inputs ods = Raise (ValueError "preculture OD below 0")
   <-> has_cell (fun od => od < 0) ods) /\
  (ByPipette.process_OD_inputs ods = Raise ZeroDivisionError
   <-> ~ has_cell (fun od => od < 0) ods /\ has_cell (fun od => od == 0) ods) /\
  ((exists p, ByPipette.process_OD_inputs ods = Ok p)
   <-> ~ has_cell (fun od => od < 0) ods /\ ~ has_cell (fun od => od == 0) ods) /\
  (forall e, ByPipette.process_OD_inputs ods = Raise e ->
             e = ValueError "preculture OD below 0" \/ e = ZeroDivisionError).
Proof.
  unfold ByPipette.process_OD_inputs.
  destruct (np_any (fun od => Qltb od 0) ods) eqn:E.
  - (* some reading is negative *)
    assert (Hneg : has_cell (fun od => od < 0) ods).
    { apply np_any_true in E. destruct E as (cells & v & Hin & Hv & H).
      exists cells, v. repeat split; auto. apply Qltb_lt. exact H. }
    split; [| split; [| split]].
    + split; auto.
    + split; [discriminate |]. intros [Hnn _]. contradiction.
    + split; [intros [p Hp]; discriminate |]. intros [Hnn _]. contradiction.
    + intros e [= <-]. left. reflexivity.
  - (* no reading is negative *)
    assert (Hnn : ~ has_cell (fun od => od < 0) ods).
    { apply no_negative_cell. apply np_any_false in E.
      eapply all_cells_impl; [| exact E]. intros v Hv. apply Qltb_ge. exact Hv. }
    destruct (volumes_of_outcome ods) as [[Hz Hvol] | [Hnz [p Hvol]]]; rewrite Hvol.
    + split; [| split; [| split]].
      * split; [discriminate |]. intros Hneg. contradiction.
      * split; auto.
      * split; [intros [p Hp]; discriminate |]. intros [_ Hno]. contradiction.
      * intros e [= <-]. right. reflexivity.
    + pose proof (no_zero_cell ods Hnz) as Hno.
      split; [| split; [| split]].
      * split; [discriminate |]. intros Hneg. contradiction.
      * split; [discriminate |]. intros [_ Hz]. contradiction.
      * split; eauto.
      * discriminate.
Qed.

Lemma volumes_of_frames (ods : DataFrame) (p : planned) :
  volumes_of ods = Ok p ->
  all_cells (fun od => ~ od == 0) ods /\
  preculture_transfer_volumes p = map (map volume_formula) ods /\
  media_tranfer_volumes p = map (map media_formula) (map (map volume_formula) ods).
Proof.
  intros Hp. destruct (volumes_of_outcome ods) as [[_ Hz] | [Hnz _]]; [congruence |].
  split; [exact Hnz |]. destruct (volumes_of_ok ods Hnz) as [out H].
  rewrite H in Hp. injection Hp as <-. split; reflexivity.
Qed.

Lemma volume_formula_amount (od : Q) :
  ~ od == 0 -> volume_formula od * od == target_volume * target_OD.
Proof. intros H. unfold volume_formula. field. exact H. Qed.

Lemma volume_formula_negative (od : Q) : od < 0 -> volume_formula od < 0.
Proof.
  intros H. assert (Hne : ~ od == 0) by lra.
  pose proof (volume_formula_amount od Hne) as Ha.
  unfold target_volume, target_OD in Ha.
  destruct (Qlt_le_dec (volume_formula od) 0) as [Hlt | Hge]; [exact Hlt |].
  exfalso. assert (H0 : 0 <= volume_formula od * (- od)).
  { apply Qmult_le_0_compat; lra. }
  assert (volume_formula od * - od == - (volume_formula od * od)) as Hm by ring.
  rewrite Hm, Ha in H0. revert H0. apply Qlt_not_le. reflexivity.
Qed.

(** X2.  [process_OD_inputs] of [preculture_dilution.py] has no check of the
    sign: it raises [ZeroDivisionError] exactly when some reading is 0,
    raises nothing else, and returns on every other frame; where a reading
    is negative it plans a negative preculture volume and a media volume of
    [target_volume] minus that, more than [target_volume]. *)
Theorem X2_planner_without_sign_check (ods : DataFrame) :
  (PrecultureDilution.process_OD_inputs ods = Raise ZeroDivisionError
   <-> has_cell (fun od => od == 0) ods) /\
  ((exists p, PrecultureDilution.process_OD_inputs ods = Ok p)
   <-> all_cells (fun od => ~ od == 0) ods) /\
  (forall e, PrecultureDilution.process_OD_inputs ods = Raise e -> e = ZeroDivisionError) /\
  (forall p row col od,
     PrecultureDilution.process_OD_inputs ods = Ok p ->
     loc ods row col = Ok od -> od < 0 ->
     exists precultureVolume diluentVolume,
       loc (preculture_transfer_volumes p) row col = Ok precultureVolume /\
       loc (media_tranfer_volumes p) row col = Ok diluentVolume /\
       precultureVolume < 0 /\
       diluentVolume == target_volume - precultureVolume /\
       target_volume < diluentVolume).
Proof.
  unfold PrecultureDilution.process_OD_inputs.
  split; [| split; [| split]].
  - destruct (volumes_of_outcome ods) as [[Hz Hv] | [Hnz [p Hv]]]; rewrite Hv.
    + split; auto.
    + split; [discriminate |]. intros Hz. exfalso.
      destruct (has_cell_all_cells _ _ _ Hz Hnz) as (v & H1 & H2). contradiction.
  - destruct (volumes_of_outcome ods) as [[Hz Hv] | [Hnz [p Hv]]]; rewrite Hv.
    + split; [intros [p Hp]; discriminate |]. intros Hnz. exfalso.
      destruct (has_cell_all_cells _ _ _ Hz Hnz) as (v & H1 & H2). contradiction.
    + split; eauto.
  - intros e He. destruct (volumes_of_outcome ods) as [[_ Hv] | [_ [p Hv]]]; congruence.
  - intros p row col od Hp Hod Hneg.
    destruct (volumes_of_frames ods p Hp) as (_ & -> & ->).
    exists (volume_formula od), (media_formula (volume_formula od)).
    rewrite !loc_map, Hod. split; [reflexivity |]. split; [reflexivity |].
    pose proof (volume_formula_negative od Hneg) as Hpv.
    unfold media_formula, target_volume in *.
    destruct (Qltb 0 (150 - volume_formula od)) eqn:E.
    + split; [exact Hpv |]. split; [reflexivity | lra].
    + apply Qltb_ge in E. lra.
Qed.

(** X3.  When [process_OD_inputs] of either script returns, it has printed
    the warning exactly when some reading is below [target_OD], and nothing
    otherwise. *)
Theorem X3_warning_below_target (ods : DataFrame) (p : planned) :
  PrecultureDilution.process_OD_inputs ods = Ok p \/
  ByPipette.process_OD_inputs ods = Ok p ->
  (stdout p = [warning] <-> has_cell (fun od => od < target_OD) ods) /\
  (stdout p = [] <-> all_cells (fun od => target_OD <= od) ods).
Proof.
  intros Hp.
  assert (Hv : volumes_of ods = Ok p).
  { destruct Hp as [Hp | Hp]; [exact Hp | apply ByPipette_volumes_of; exact Hp]. }
  clear Hp. unfold volumes_of in Hv.
  destruct (applymap get_transfer_volume ods) as [pre |]; [| discriminate].
  injection Hv as <-. simpl.
  destruct (np_any (fun od => Qltb od target_OD) ods) eqn:E.
  - assert (Hlow : has_cell (fun od => od < target_OD) ods).
    { apply np_any_true in E. destruct E as (cells & v & Hin & Hv & H).
      exists cells, v. repeat split; auto. apply Qltb_lt. exact H. }
    repeat split; auto; try discriminate.
    intros Hall. exfalso.
    destruct (has_cell_all_cells _ _ _ Hlow Hall) as (v & H1 & H2). lra.
  - assert (Hall : all_cells (fun od => target_OD <= od) ods).
    { apply np_any_false in E. eapply all_cells_impl; [| exact E].
      intros v Hv. apply Qltb_ge. exact Hv. }
    repeat split; auto; try discriminate.
    intros Hlow. exfalso.
    destruct (has_cell_all_cells _ _ _ Hlow Hall) as (v & H1 & H2). lra.
Qed.

Lemma X3_witness :
  exists p,
    ByPipette.process_OD_inputs mixed_readings = Ok p /\
    (stdout p = [warning] <-> has_cell (fun od => od < target_OD) mixed_readings) /\
    (stdout p = [] <-> all_cells (fun od => target_OD <= od) mixed_readings).
Proof.
  eexists. split.
  - vm_compute. reflexivity.
  - apply (X3_warning_below_target mixed_readings). right. vm_compute. reflexivity.
Defined.

Lemma positive_volume_formula (od : Q) : 0 < od -> Qltb 0 (volume_formula od) = true.
Proof.
  intros H. apply Qltb_lt. unfold volume_formula, target_volume, target_OD.
  apply Qlt_shift_div_l; [exact H | lra].
Qed.

(** ** Denser precultures *)

(** X12.  [get_transfer_volume] falls as the reading grows: of two positive
    readings the larger one gets the smaller (or equal) preculture volume
    and the larger (or equal) media volume. *)
Theorem X12_denser_needs_less (od1 od2 : Q) :
  0 < od1 -> od1 <= od2 ->
  get_transfer_volume od1 = Ok (volume_formula od1) /\
  get_transfer_volume od2 = Ok (volume_formula od2) /\
  volume_formula od2 <= volume_formula od1 /\
  media_formula (volume_formula od1) <= media_formula (volume_formula od2).
Proof.
  intros H1 H12.
  assert (Hn1 : ~ od1 == 0) by lra. assert (Hn2 : ~ od2 == 0) by lra.
  split; [apply get_transfer_volume_ok; exact Hn1 |].
  split; [apply get_transfer_volume_ok; exact Hn2 |].
  assert (Hle : volume_formula od2 <= volume_formula od1).
  { destruct (Qlt_le_dec (volume_formula od1) (volume_formula od2)) as [Hlt | Hle];
      [exfalso | exact Hle].
    pose proof (volume_formula_amount od1 Hn1) as A1.
    pose proof (volume_formula_amount od2 Hn2) as A2.
    assert (Hpos : 0 < volume_formula od1).
    { apply Qltb_lt. apply positive_volume_formula. exact H1. }
    assert (H : volume_formula od1 * od2 < volume_formula od2 * od2).
    { apply Qmult_lt_compat_r; [lra | exact Hlt]. }
    assert (H' : volume_formula od1 * od1 <= volume_formula od1 * od2).
    { apply Qmult_le_l; assumption. }
    lra. }
  split; [exact Hle |].
  unfold media_formula.
  destruct (Qltb 0 (target_volume - volume_formula od1)) eqn:E1;
    destruct (Qltb 0 (target_volume - volume_formula od2)) eqn:E2;
    try apply Qltb_lt in E1; try apply Qltb_ge in E1;
    try apply Qltb_lt in E2; try apply Qltb_ge in E2; lra.
Qed.

Lemma X12_witness :
  get_transfer_volume (1 # 10) = Ok (volume_formula (1 # 10)) /\
  get_transfer_volume (1 # 2) = Ok (volume_formula (1 # 2)) /\
  volume_formula (1 # 2) <= volume_formula (1 # 10) /\
  media_formula (volume_formula (1 # 10)) <= media_formula (volume_formula (1 # 2)).
Proof.
  apply (X12_denser_needs_less (1 # 10) (1 # 2)).
  - reflexivity.
  - discriminate.
Defined.

(** ** What the run of [preculture_dilution.py] asks for *)

Lemma row_major_map (select : Q -> bool) (g : Q -> Q) (df : DataFrame) :
  row_major select (map (map g) df) = planned_cells (fun v => select (g v)) g df.
Proof.
  unfold planned_cells, row_major. generalize cells as l.
  induction l as [| [row col] l IH]; cbn [flat_map fst snd]; [reflexivity |].
  rewrite map_app, <- IH. f_equal.
  rewrite loc_map. destruct (loc df row col) as [v |]; [| reflexivity].
  destruct (select (g v)); reflexivity.
Qed.

Lemma row_major_ext (s1 s2 : Q -> bool) (df : DataFrame) :
  all_cells (fun v => s1 v = s2 v) df -> row_major s1 df = row_major s2 df.
Proof.
  intros H. unfold row_major. apply flat_map_ext. intros [row col]. simpl.
  destruct (loc df row col) as [v |] eqn:E; [| reflexivity].
  rewrite (loc_all_cells _ _ _ _ _ H E). reflexivity.
Qed.

Lemma positive_media_formula (od : Q) :
  0 < od -> Qltb 0 (media_formula (volume_formula od)) = Qltb target_OD od.
Proof.
  intros H. destruct (Qltb target_OD od) eqn:E.
  - apply Qltb_lt. apply media_formula_pos. apply volume_formula_below; [exact H |].
    apply Qltb_lt. exact E.
  - apply Qltb_ge. apply Qltb_ge in E.
    destruct (Qlt_le_dec 0 (media_formula (volume_formula od))) as [Hlt | Hle]; [| exact Hle].
    exfalso. apply media_formula_pos in Hlt. apply volume_formula_below in Hlt; [| exact H].
    lra.
Qed.

Lemma planned_media_cells (ods : DataFrame) :
  all_cells (fun od => 0 < od) ods ->
  row_major (Qltb 0) (map (map media_formula) (map (map volume_formula) ods))
  = planned_cells (fun od => Qltb target_OD od)
      (fun od => media_formula (volume_formula od)) ods.
Proof.
  intros H.
  replace (map (map media_formula) (map (map volume_formula) ods))
    with (map (map (fun od => media_formula (volume_formula od))) ods).
  - rewrite row_major_map. unfold planned_cells. f_equal.
    apply row_major_ext. eapply all_cells_impl; [| exact H].
    intros v. apply positive_media_formula.
  - rewrite map_map. apply map_ext. intros cells. rewrite map_map. reflexivity.
Qed.

Lemma in_cell_events_intro (volumes : DataFrame) (f : ascii -> nat -> Q -> list action)
    (a : action) (row : ascii) (col : nat) (v : Q) :
  In row rows -> In col cols -> loc volumes row col = Ok v -> In a (f row col v) ->
  In a (cell_events volumes f).
Proof.
  intros Hr Hc Hv Ha. unfold cell_events. apply in_flat_map.
  exists (row, col). split.
  - unfold cells. apply in_prod; assumption.
  - cbn [fst snd]. rewrite Hv. exact Ha.
Qed.

Lemma nonzero_readings (ods : DataFrame) :
  all_cells (fun od => od < 0 \/ 0 < od) ods -> all_cells (fun od => ~ od == 0) ods.
Proof.
  apply all_cells_impl. intros v [H | H] H0; lra.
Qed.

(** On readings that are all negative or positive the planner of
    [preculture_dilution.py] returns, and the run ends at the call
    [has_tip()] with the log written out in [run_log]. *)
Lemma PD_run_numbers (ods : DataFrame) :
  shape_ok ods ->
  all_cells (fun od => od < 0 \/ 0 < od) ods ->
  exists p,
    PrecultureDilution.process_OD_inputs ods = Ok p /\
    media_tranfer_volumes p = map (map media_formula) (map (map volume_formula) ods) /\
    PrecultureDilution.run ods power_on
    = (Raise (TypeError not_callable),
       {| p10_tip := PrecultureDilution.needs_p10 (media_tranfer_volumes p);
          p300_tip := PrecultureDilution.needs_p300 (media_tranfer_volumes p);
          log := PrecultureDilution.run_log p |}).
Proof.
  intros Hs Hn. destruct (volumes_of_ok ods (nonzero_readings ods Hn)) as [out Hp].
  eexists. split; [exact Hp |]. split; [reflexivity |].
  apply PrecultureDilutionLog.PD_run_planned; [exact Hs | exact Hp].
Qed.

(** X5.  On every frame of readings that are all negative or positive,
    every transfer that the run of [preculture_dilution.py] asks for is
    asked with [new_tip="never"] and has a positive volume, below
    [p300_min_transfer_volume] when the p10 is asked and from
    [p300_min_transfer_volume] on when the p300 is asked. *)
Theorem X5_medium_requests_fit (ods : DataFrame) :
  shape_ok ods ->
  all_cells (fun od => od < 0 \/ 0 < od) ods ->
  Forall medium_request (log (snd (PrecultureDilution.run ods power_on))).
Proof.
  intros Hs Hn. destruct (PD_run_numbers ods Hs Hn) as (p & _ & _ & ->).
  cbn [snd log]. apply PD_run_log_Forall.
  - repeat constructor.
  - intros pipette. exact I.
  - intros row col v _ _ _ Hv. cbn [medium_request].
    split; [reflexivity |]. split; [apply Qleb_gt; exact Hv |].
    unfold PrecultureDilution.media_pipette.
    destruct (Qleb p300_min_transfer_volume v) eqn:E.
    + apply Qleb_le. exact E.
    + apply Qleb_gt. exact E.
Qed.

Lemma X5_witness :
  Forall medium_request (log (snd (PrecultureDilution.run mixed_readings power_on))).
Proof.
  apply (X5_medium_requests_fit mixed_readings).
  - shape_by_computation.
  - each_cell ltac:(right; reflexivity).
Defined.

(** X6.  On every frame of readings that are all negative or positive,
    every transfer that the run of [preculture_dilution.py] asks for goes
    from a well of the media plate to the well of the target plate with the
    same row and column, one of the 96 cells A0 to H11. *)
Theorem X6_well_to_same_well (ods : DataFrame) :
  shape_ok ods ->
  all_cells (fun od => od < 0 \/ 0 < od) ods ->
  Forall well_to_well (log (snd (PrecultureDilution.run ods power_on))).
Proof.
  intros Hs Hn. destruct (PD_run_numbers ods Hs Hn) as (p & _ & _ & ->).
  cbn [snd log]. apply PD_run_log_Forall.
  - repeat constructor.
  - intros pipette. exact I.
  - intros row col v Hr Hc _ _. cbn. auto.
Qed.

Lemma X6_witness :
  Forall well_to_well (log (snd (PrecultureDilution.run mixed_readings power_on))).
Proof.
  apply (X6_well_to_same_well mixed_readings).
  - shape_by_computation.
  - each_cell ltac:(right; reflexivity).
Defined.

(** ** What no run ever does *)

(** X7.  Whatever the readings, neither script moves any preculture: the
    log of [preculture_dilution.py] holds no transfer out of the preculture
    plate, and the log of [preculture_dilution_by_pipette.py] holds no
    transfer at all. *)
Theorem X7_preculture_never_moved (ods : DataFrame) :
  shape_ok ods ->
  Forall (fun a => from_plate preculture_wells a = false)
    (log (snd (PrecultureDilution.run ods power_on))) /\
  Forall (fun a => is_transfer a = false) (log (snd (ByPipette.run ods power_on))).
Proof.
  intros Hs. split.
  - destruct (PD_run_outcome ods Hs) as [(p & _ & ->) | (e & _ & ->)].
    + cbn [snd log]. apply PD_run_log_Forall.
      * repeat constructor.
      * reflexivity.
      * reflexivity.
    + cbn. repeat constructor.
  - destruct (ByPipetteTrace.BP_run_outcome ods) as (e & -> & _).
    cbn. repeat constructor.
Qed.

Lemma X7_witness :
  Forall (fun a => from_plate preculture_wells a = false)
    (log (snd (PrecultureDilution.run mixed_readings power_on))) /\
  Forall (fun a => is_transfer a = false)
    (log (snd (ByPipette.run mixed_readings power_on))).
Proof.
  apply (X7_preculture_never_moved mixed_readings). shape_by_computation.
Defined.

Lemma PD_run_log_lights (p : planned) :
  hd_error (PrecultureDilution.run_log p) = Some (SetRailLights true) /\
  ~ In (SetRailLights false) (PrecultureDilution.run_log p) /\
  ~ In Home (PrecultureDilution.run_log p).
Proof.
  split; [reflexivity |].
  assert (H : Forall (fun a => a <> SetRailLights false /\ a <> Home)
                (PrecultureDilution.run_log p)).
  { apply PD_run_log_Forall.
    - repeat constructor; discriminate.
    - intros pipette. split; discriminate.
    - intros. split; discriminate. }
  rewrite Forall_forall in H.
  split; intros Hin; apply H in Hin; destruct Hin as [H1 H2]; congruence.
Qed.

Lemma setup_lights :
  (~ In (SetRailLights false) PrecultureDilution.setup /\
   ~ In Home PrecultureDilution.setup) /\
  (~ In (SetRailLights false) ByPipette.setup /\ ~ In Home ByPipette.setup).
Proof.
  repeat split; intros H; cbn in H;
    repeat (destruct H as [H | H]; [discriminate H |]); exact H.
Qed.

(** X9.  No run completes.  On every frame the run of either script ends
    with an exception, the one of [process_OD_inputs] when that raises; its
    first request switches the rail lights on, and it never switches them
    off and never homes.  When the readings are all negative or positive
    the run of [preculture_dilution.py] ends with the [TypeError] of
    [has_tip()]; whenever its planner returns, the run of
    [preculture_dilution_by_pipette.py] ends with the [ValueError] of the
    truth value of a frame. *)
Theorem X9_no_run_completes (ods : DataFrame) :
  shape_ok ods ->
  ends_with_lights_on PrecultureDilution.process_OD_inputs PrecultureDilution.run ods /\
  ends_with_lights_on ByPipette.process_OD_inputs ByPipette.run ods /\
  (all_cells (fun od => od < 0 \/ 0 < od) ods ->
   fst (PrecultureDilution.run ods power_on) = Raise (TypeError not_callable)) /\
  (forall p, ByPipette.process_OD_inputs ods = Ok p ->
             fst (ByPipette.run ods power_on) = Raise (ValueError ambiguous)).
Proof.
  intros Hs. split; [| split; [| split]].
  - unfold ends_with_lights_on.
    destruct (PD_run_outcome ods Hs) as [(p & Hp & ->) | (e & Hp & ->)];
      cbn [fst snd log add_log power_on app].
    + split; [intros e He; congruence |]. split; [discriminate |].
      apply PD_run_log_lights.
    + split; [intros e' He; congruence |]. split; [discriminate |].
      split; [reflexivity |]. apply setup_lights.
  - unfold ends_with_lights_on.
    destruct (ByPipetteTrace.BP_run_outcome ods) as (e & -> & He).
    cbn [fst snd log add_log power_on app].
    split.
    { intros e' He'. rewrite He' in He. congruence. }
    split; [discriminate |]. split; [reflexivity |]. apply setup_lights.
  - intros Hn. destruct (PD_run_numbers ods Hs Hn) as (p & _ & _ & ->). reflexivity.
  - intros p Hp. rewrite (ByPipetteTrace.BP_run_planned ods p power_on Hp). reflexivity.
Qed.

Lemma X9_witness :
  ends_with_lights_on PrecultureDilution.process_OD_inputs PrecultureDilution.run
    mixed_readings /\
  ends_with_lights_on ByPipette.process_OD_inputs ByPipette.run mixed_readings /\
  (all_cells (fun od => od < 0 \/ 0 < od) mixed_readings ->
   fst (PrecultureDilution.run mixed_readings power_on) = Raise (TypeError not_callable)) /\
  (forall p, ByPipette.process_OD_inputs mixed_readings = Ok p ->
             fst (ByPipette.run mixed_readings power_on) = Raise (ValueError ambiguous)).
Proof.
  apply (X9_no_run_completes mixed_readings). shape_by_computation.
Defined.

(** ** The medium that is distributed *)

Lemma PD_run_log_cells (p : planned) :
  transferred_cells (PrecultureDilution.run_log p)
  = row_major (Qltb 0) (media_tranfer_volumes p).
Proof.
  unfold PrecultureDilution.run_log. rewrite transferred_cells_app.
  apply medium_log_cells.
Qed.

(** X10.  On every frame of positive readings the transfers that the run
    of [preculture_dilution.py] asks for are, in row-major order, one for
    each well whose reading exceeds [target_OD] and none for any other
    well, each of the media volume planned from the reading of its
    well. *)
Theorem X10_medium_served (ods : DataFrame) :
  shape_ok ods ->
  all_cells (fun od => 0 < od) ods ->
  transferred_cells (log (snd (PrecultureDilution.run ods power_on)))
  = planned_cells (fun od => Qltb target_OD od)
      (fun od => media_formula (volume_formula od)) ods.
Proof.
  intros Hs Hpos.
  assert (Hn : all_cells (fun od => od < 0 \/ 0 < od) ods).
  { eapply all_cells_impl; [| exact Hpos]. intros v Hv. right. exact Hv. }
  destruct (PD_run_numbers ods Hs Hn) as (p & _ & Hmedia & ->).
  cbn [snd log]. rewrite PD_run_log_cells, Hmedia.
  apply planned_media_cells. exact Hpos.
Qed.

Lemma X10_witness :
  transferred_cells (log (snd (PrecultureDilution.run mixed_readings power_on)))
  = planned_cells (fun od => Qltb target_OD od)
      (fun od => media_formula (volume_formula od)) mixed_readings.
Proof.
  apply (X10_medium_served mixed_readings).
  - shape_by_computation.
  - repeat constructor.
Defined.

(** On [mixed_readings] the well A3, whose reading of 0.025 is below
    [target_OD], gets no medium; A0 gets 100 ul and A1 10 ul. *)
Example mixed_readings_medium :
  map (fun x => (fst x, Qred (snd x)))
    (firstn 3
       (transferred_cells (log (snd (PrecultureDilution.run mixed_readings power_on)))))
  = [("A"%char, 0%nat, 100); ("A"%char, 1%nat, 10); ("A"%char, 2%nat, 135)] /\
  length (transferred_cells (log (snd (PrecultureDilution.run mixed_readings power_on))))
  = 95%nat.
Proof. vm_compute. split; reflexivity. Qed.

(** ** A negative reading in [preculture_dilution.py] *)

(** X16.  [preculture_dilution.py] does not refuse a negative reading.  On
    a frame of readings that are all negative or positive, the p300 is
    asked to move more than [target_volume] of medium into the well of a
    negative reading, before the run ends at the call [has_tip()]. *)
Theorem X16_negative_reading_runs (ods : DataFrame) (row : ascii) (col : nat) (od : Q) :
  shape_ok ods ->
  all_cells (fun od => od < 0 \/ 0 < od) ods ->
  In row rows -> In col cols ->
  loc ods row col = Ok od ->
  od < 0 ->
  fst (PrecultureDilution.run ods power_on) = Raise (TypeError not_callable) /\
  target_volume < media_formula (volume_formula od) /\
  In (Transfer pipette_p300 (media_formula (volume_formula od))
        (rows_by_name media_wells row col) (rows_by_name target_wells row col) never)
     (log (snd (PrecultureDilution.run ods power_on))).
Proof.
  intros Hs Hn Hr Hc Hod Hneg.
  destruct (PD_run_numbers ods Hs Hn) as (p & _ & Hmedia & ->).
  cbn [fst snd log].
  pose proof (volume_formula_negative od Hneg) as Hpv.
  assert (Hbig : target_volume < media_formula (volume_formula od)).
  { unfold media_formula, target_volume in *.
    destruct (Qltb 0 (150 - volume_formula od)) eqn:E; [lra |].
    apply Qltb_ge in E. lra. }
  split; [reflexivity |]. split; [exact Hbig |].
  unfold PrecultureDilution.run_log, PrecultureDilution.medium_log.
  apply in_or_app. right. apply in_or_app. right.
  unfold PrecultureDilution.medium_transfers. rewrite Hmedia.
  apply in_cell_events_intro
    with (row := row) (col := col) (v := media_formula (volume_formula od));
    [exact Hr | exact Hc | rewrite !loc_map, Hod; reflexivity |].
  unfold target_volume in Hbig.
  replace (Qleb (media_formula (volume_formula od)) 0) with false
    by (symmetry; apply Qleb_gt; lra).
  unfold PrecultureDilution.media_pipette, p300_min_transfer_volume.
  replace (Qleb 30 (media_formula (volume_formula od))) with true
    by (symmetry; apply Qleb_le; lra).
  left. reflexivity.
Qed.

Lemma X16_witness :
  fst (PrecultureDilution.run negative_then_positive power_on)
  = Raise (TypeError not_callable) /\
  target_volume < media_formula (volume_formula (- (1 # 10))) /\
  In (Transfer pipette_p300 (media_formula (volume_formula (- (1 # 10))))
        (rows_by_name media_wells "A"%char 0%nat) (rows_by_name target_wells "A"%char 0%nat)
        never)
     (log (snd (PrecultureDilution.run negative_then_positive power_on))).
Proof.
  apply (X16_negative_reading_runs negative_then_positive "A"%char 0%nat (- (1 # 10))).
  - shape_by_computation.
  - each_cell ltac:(first [left; reflexivity | right; reflexivity]).
  - left. reflexivity.
  - left. reflexivity.
  - reflexivity.
  - reflexivity.
Defined.

(** The volume asked for on [negative_then_positive]: 225 ul into A0. *)
Example negative_reading_volume :
  media_formula (volume_formula (- (1 # 10))) == 225.
Proof. reflexivity. Qed.
